(** * fuse-netcdf playground: the NetCDF filesystem core

    A shallow embedding of [ncfsplayground/fusenetcdf.py] (Python 2) and the
    properties of its path classification, stat synthesis, directory listing
    and windowed reads.

    Conventions of the embedding:
    - a Python [str] is a [string] (a byte string), a Python [int] is a [Z];
    - a raised exception is the [Raise] branch of [Py.result];
    - [log_call()] only emits a debug record and is left out;
    - what comes from [os], [time], [numpy] and [netCDF4] is taken through
      the [OS] record and the [Host] class. *)

From Stdlib Require Import ZArith List String Ascii Bool Lia DecimalString.
Import ListNotations.

Local Open Scope string_scope.
Local Open Scope Z_scope.

(** ** Python fragments used by the program *)

Module Py.

Inductive exn : Type :=
| KeyError (key : string)
| AttributeError (name : string)
| NameError (name : string)
| UnboundLocalError (name : string)
| TypeError (msg : string)
| ValueError (msg : string)
| InternalError (msg : string)
| FuseOSError (errno : Z).

Inductive result (A : Type) : Type :=
| Ok (a : A)
| Raise (e : exn).

Arguments Ok {A} a.
Arguments Raise {A} e.

Definition bind {A B : Type} (c : result A) (k : A -> result B) : result B :=
  match c with
  | Ok a => k a
  | Raise e => Raise e
  end.


(** [len(s)] *)
Definition len (s : string) : Z := Z.of_nat (String.length s).

Fixpoint mem_char (c : ascii) (chars : string) : bool :=
  match chars with
  | EmptyString => false
  | String a chars' => Ascii.eqb a c || mem_char c chars'
  end.

(** [s.lstrip(chars)]: every leading character that occurs in [chars]
    is dropped. *)
Fixpoint lstrip (chars s : string) : string :=
  match s with
  | EmptyString => EmptyString
  | String a s' => if mem_char a chars then lstrip chars s' else s
  end.

(** [needle in hay] on strings: substring containment. *)
Fixpoint contains (needle hay : string) : bool :=
  String.prefix needle hay ||
  match hay with
  | EmptyString => false
  | String _ hay' => contains needle hay'
  end.

(** [s.split(sep)] for a one-character separator. *)
Fixpoint split (sep : ascii) (s : string) : list string :=
  match s with
  | EmptyString => [EmptyString]
  | String a s' =>
      if Ascii.eqb a sep then EmptyString :: split sep s'
      else match split sep s' with
           | h :: t => String a h :: t
           | [] => [String a EmptyString]
           end
  end.

(** [s.split(sep, 1)]: at most one cut, at the first separator. *)
Fixpoint split1 (sep : ascii) (s : string) : list string :=
  match s with
  | EmptyString => [EmptyString]
  | String a s' =>
      if Ascii.eqb a sep then [EmptyString; s']
      else match split1 sep s' with
           | h :: t => String a h :: t
           | [] => [String a EmptyString]
           end
  end.

(** [l[0]] and [l[-1]] on the lists that [split] returns (never empty). *)
Definition first (l : list string) : string := hd EmptyString l.
Definition final (l : list string) : string := last l EmptyString.

(** Index adjustment of a slice bound: a negative bound counts from the
    end, and the bound is then clamped to [0, n]. *)
Definition adjust (n i : Z) : Z :=
  if i <? 0 then Z.max 0 (i + n) else Z.min i n.

(** [s[lo:hi]] *)
Definition slice (s : string) (lo hi : Z) : string :=
  let n := len s in
  let l := adjust n lo in
  let h := adjust n hi in
  if l <? h then String.substring (Z.to_nat l) (Z.to_nat (h - l)) s
  else EmptyString.

(** ['\n'] *)
Definition newline : string := String "010" EmptyString.

(** [''.join(parts)] *)
Definition join (parts : list string) : string :=
  fold_right String.append EmptyString parts.

End Py.

Import Py.

Notation "x <- c ;; k" := (Py.bind c (fun x => k))
  (at level 61, c at next level, right associativity).

(** ** The stat dictionary built by [getattr] *)

Section Stat.

Variable T : Type.   (* the type of the three time stamps *)

Record statdict : Type := mkstat {
  st_atime : T;
  st_ctime : T;
  st_gid : Z;
  st_mode : Z;
  st_mtime : T;
  st_nlink : Z;
  st_size : Z;
  st_uid : Z
}.

(** [statdict["st_mode"] = m] *)
Definition set_st_mode (d : statdict) (m : Z) : statdict :=
  mkstat (st_atime d) (st_ctime d) (st_gid d) m (st_mtime d)
         (st_nlink d) (st_size d) (st_uid d).

(** [statdict["st_size"] = n] *)
Definition set_st_size (d : statdict) (n : Z) : statdict :=
  mkstat (st_atime d) (st_ctime d) (st_gid d) (st_mode d) (st_mtime d)
         (st_nlink d) n (st_uid d).

(** The body of the loop of [makeIntoDir], for one pair [i]. *)
Definition makeIntoDir_step (d : statdict) (i : Z * Z) : statdict :=
  if negb (Z.land (st_mode d) (fst i) =? 0)
  then set_st_mode d (Z.lor (st_mode d) (snd i))
  else d.

(** [NCFS.makeIntoDir]; the literals are 0o100000, 0o040000 and the pairs
    [0o400, 0o100], [0o40, 0o10], [0o4, 0o1]. *)
Definition makeIntoDir (d : statdict) : statdict :=
  let d := set_st_mode d (Z.lor (Z.lxor (st_mode d) 32768) 16384) in
  fold_left makeIntoDir_step [(256, 64); (32, 8); (4, 1)] d.

(** [stat.S_ISDIR] and [stat.S_ISREG] on a mode word. *)
Definition S_ISDIR (m : Z) : bool := Z.land m 61440 =? 16384.
Definition S_ISREG (m : Z) : bool := Z.land m 61440 =? 32768.

End Stat.

Arguments mkstat {T}.
Arguments st_atime {T}.
Arguments st_ctime {T}.
Arguments st_gid {T}.
Arguments st_mode {T}.
Arguments st_mtime {T}.
Arguments st_nlink {T}.
Arguments st_size {T}.
Arguments st_uid {T}.
Arguments set_st_mode {T}.
Arguments set_st_size {T}.
Arguments makeIntoDir_step {T}.
Arguments makeIntoDir {T}.

(** ** What the program takes from its libraries *)

(** The values and library functions of [time], [netCDF4] and [numpy] that
    the program only passes around: time stamps, attribute values and array
    elements, with [str(attr)], the bytes of one array element (what
    [tobytes] puts out for it) and [fmt % x] for one element (what
    [numpy.char.mod] applies to each). *)
Class Host : Type := {
  pyfloat : Type;
  ncattr : Type;
  scalar : Type;
  str : ncattr -> string;
  tobytes : scalar -> string;
  char_mod : string -> scalar -> result string
}.

(** The part of [os] the program calls. *)
Record OS : Type := {
  getuid : Z;
  getgid : Z;
  os_access : string -> Z -> bool
}.

Definition R_OK : Z := 4.
Definition X_OK : Z := 1.
Definition EACCES : Z := 13.
Definition ENOENT : Z := 2.

(** ** The dataset *)

Section Dataset.

Context {host : Host}.

(** A netCDF variable: its attributes in order, and the elements of
    [variable[:]] in row-major order, the order in which both [flatten()]
    and [tobytes()] visit them. *)
Record NcVariable : Type := {
  attributes : list (string * ncattr);
  values : list scalar
}.

(** [dataset.variables], an ordered dictionary. *)
Record Dataset : Type := {
  variables : list (string * NcVariable)
}.

Fixpoint assoc {A : Type} (k : string) (l : list (string * A)) : option A :=
  match l with
  | [] => None
  | (k', a) :: l' => if String.eqb k k' then Some a else assoc k l'
  end.

(** [k in d] *)
Definition has_key {A : Type} (k : string) (l : list (string * A)) : bool :=
  match assoc k l with
  | Some _ => true
  | None => false
  end.

(** [d[k]] *)
Definition getitem {A : Type} (l : list (string * A)) (k : string) : result A :=
  match assoc k l with
  | Some a => Ok a
  | None => Raise (KeyError k)
  end.

(** [variable.getncattr(name)] *)
Definition getncattr (v : NcVariable) (name : string) : result ncattr :=
  match assoc name (attributes v) with
  | Some a => Ok a
  | None => Raise (AttributeError name)
  end.

(** [variable.ncattrs()] *)
Definition ncattrs (v : NcVariable) : list string := map fst (attributes v).

End Dataset.

(** ** Data representation plugins *)

(** The two methods every plugin class has: [size] and [__call__]. *)
Record Plugin (A : Type) : Type := {
  size : A -> result Z;
  call : A -> result string
}.

Arguments size {A}.
Arguments call {A}.

Module VardataAsBinaryFiles.
Section WithHost.
Context {host : Host}.

Definition __call__ (variable : NcVariable) : result string :=
  let data := Py.join (map tobytes (values variable)) in
  Ok data.

Definition size (variable : NcVariable) : result Z :=
  data <- __call__ variable ;; Ok (len data).

Definition new : Plugin NcVariable := Build_Plugin _ size __call__.

End WithHost.
End VardataAsBinaryFiles.

Module VardataAsFlatTextFiles.
Section WithHost.
Context {host : Host}.

(** [numpy.char.mod(a, values)]: [a % x] for each element in turn. *)
Fixpoint mod_each (a : string) (xs : list scalar) : result (list string) :=
  match xs with
  | [] => Ok []
  | x :: xs' =>
      line <- char_mod a x ;;
      rest <- mod_each a xs' ;;
      Ok (line :: rest)
  end.

Definition __call__ (fmt : string) (variable : NcVariable) : result string :=
  lines <- mod_each (fmt ++ newline) (values variable) ;;
  Ok (Py.join lines).

Definition size (fmt : string) (variable : NcVariable) : result Z :=
  data <- __call__ fmt variable ;; Ok (len data).

Definition new (fmt : string) : Plugin NcVariable :=
  Build_Plugin _ (size fmt) (__call__ fmt).

End WithHost.
End VardataAsFlatTextFiles.

Module AttributesAsTextFiles.
Section WithHost.
Context {host : Host}.

Definition __call__ (attr : ncattr) : result string :=
  Ok (str attr ++ newline).

Definition size (attr : ncattr) : result Z :=
  data <- __call__ attr ;; Ok (len data).

Definition new : Plugin ncattr := Build_Plugin _ size __call__.

End WithHost.
End AttributesAsTextFiles.

(** The closed set of plugin classes of the program, by the type of value
    each one represents. *)
Inductive strategy {host : Host} : Type -> Type :=
| BinaryData : strategy NcVariable
| FlatTextData (fmt : string) : strategy NcVariable
| AttributeText : strategy ncattr.

Definition plugin {host : Host} {A : Type} (s : strategy A) : Plugin A :=
  match s with
  | BinaryData => VardataAsBinaryFiles.new
  | FlatTextData fmt => VardataAsFlatTextFiles.new fmt
  | AttributeText => AttributesAsTextFiles.new
  end.

(** ** The NetCDF filesystem *)

Module NCFS.
Section WithHost.
Context {host : Host}.

(** An [NCFS] instance.  [dataset_file] is the instance attribute that
    [access] reads: [None] when it was never assigned, [Some None] when it
    holds Python's [None], [Some (Some p)] when it holds a path. *)
Record t : Type := {
  dataset : Dataset;
  vardata_repr : Plugin NcVariable;
  attr_repr : Plugin ncattr;
  mount_time : pyfloat;
  dataset_file : option (option string)
}.

(** [NCFS.__init__]; [now] is what [time.time()] returns.  The four
    assignments of the constructor, and no other. *)
Definition __init__ (dataset : Dataset) (vardata_repr : Plugin NcVariable)
    (attr_repr : Plugin ncattr) (now : pyfloat) : t :=
  {| dataset := dataset;
     vardata_repr := vardata_repr;
     attr_repr := attr_repr;
     mount_time := now;
     dataset_file := None |}.

Definition is_var_dir (self : t) (path : string) : bool :=
  has_key (lstrip "/" path) (variables (dataset self)).

Definition is_var_data (self : t) (path : string) : bool :=
  contains "DATA_REPR" path.

Definition is_var_dimensions (self : t) (path : string) : bool :=
  contains "dimensions" path.

Definition is_var_attribute (self : t) (path : string) : bool :=
  if contains ".Trash" path then false
  else negb (is_var_dir self path
             || is_var_data self path
             || is_var_dimensions self path).

Definition exists_ (self : t) (path : string) : bool := true.

Definition is_dir (self : t) (path : string) : bool := is_var_dir self path.

Definition is_blacklisted (self : t) (path : string) : bool :=
  contains ".Trash" path.

Definition is_file (self : t) (path : string) : bool :=
  negb (is_dir self path).

Definition get_varname (self : t) (path : string) : string :=
  Py.first (split1 "/" (lstrip "/" path)).

Definition get_attrname (self : t) (path : string) : string :=
  Py.final (split "/" path).

Definition get_variable (self : t) (path : string) : result NcVariable :=
  let varname := get_varname self path in
  getitem (variables (dataset self)) varname.

Definition get_attribute (self : t) (path : string) : result ncattr :=
  let varname := get_varname self path in
  let attrname := get_attrname self path in
  var <- getitem (variables (dataset self)) varname ;;
  getncattr var attrname.

Definition getncAttrs (self : t) (path : string) : result (list string) :=
  let varname := get_varname self path in
  var <- getitem (variables (dataset self)) varname ;;
  Ok (ncattrs var).

(** The default attributes at the head of [getattr]: a regular file. *)
Definition default_stat (self : t) (os : OS) : statdict pyfloat :=
  {| st_atime := mount_time self;
     st_ctime := mount_time self;
     st_gid := getgid os;
     st_mode := 33188;
     st_mtime := mount_time self;
     st_nlink := 1;
     st_size := 4096;
     st_uid := getuid os |}.

Definition getattr (self : t) (os : OS) (path : string)
    : result (statdict pyfloat) :=
  let statdict := default_stat self os in
  let path := lstrip "/" path in
  if String.eqb path "" then
    Ok (makeIntoDir statdict)
  else if is_blacklisted self path then
    Ok statdict
  else if negb (exists_ self path) then
    Raise (FuseOSError ENOENT)
  else if is_var_dir self path then
    let statdict := makeIntoDir statdict in
    Ok (set_st_size statdict 4096)
  else if is_var_attribute self path then
    attr <- get_attribute self path ;;
    n <- size (attr_repr self) attr ;;
    Ok (set_st_size statdict n)
  else if is_var_data self path then
    var <- get_variable self path ;;
    n <- size (vardata_repr self) var ;;
    Ok (set_st_size statdict n)
  else
    Raise (InternalError ("getattr: unexpected path " ++ path)).

Definition getxattr (self : t) (name : string) : string := "foo".

Definition readdir (self : t) (path : string) : result (list string) :=
  let path := lstrip "/" path in
  if String.eqb path "" then
    (* [item.encode('utf-8')] leaves a byte string of a name as it is *)
    Ok (["."; ".."] ++ map fst (variables (dataset self)))%list
  else if has_key path (variables (dataset self)) then
    local_attrs <- getncAttrs self path ;;
    Ok (["."; ".."] ++ local_attrs ++ ["DATA_REPR"])%list
  else
    Ok ["."; ".."].

Definition access (self : t) (os : OS) (mode : Z) : result unit :=
  match dataset_file self with
  | None => Raise (AttributeError "dataset_file")
  | Some None => Raise (UnboundLocalError "path")
  | Some (Some path) =>
      let mode := if mode =? X_OK then R_OK else mode in
      if negb (os_access os path mode) then Raise (FuseOSError EACCES)
      else Ok tt
  end.

(** [FuseOSOSError] is bound nowhere: evaluating the [raise] statement
    raises [NameError]. *)
Definition open (self : t) (path : string) (flags : Z) : result Z :=
  if negb (is_file self path) then Raise (NameError "FuseOSOSError")
  else Ok 0.

Definition read (self : t) (path : string) (size offset : Z)
    : result string :=
  if is_var_attribute self path then
    let varname := get_varname self path in
    let attrname := get_attrname self path in
    attr <- get_attribute self path ;;
    data <- call (attr_repr self) attr ;;
    Ok (slice data offset (offset + size))
  else if is_var_data self path then
    var <- get_variable self path ;;
    data <- call (vardata_repr self) var ;;
    Ok (slice data offset (offset + size))
  else
    Raise (InternalError ("read: unexpected path " ++ path)).

(** [write] as a state transformer on the instance: the value it returns
    and the instance it leaves behind. *)
Definition write (self : t) (path data : string) (offset : Z)
    : result Z * t :=
  (Ok (len data), self).

Definition close (self : t) (fh : Z) : unit := tt.

(** The byte sequence that [read] cuts its window from: the whole
    representation of the node at [path]. *)
Definition representation (self : t) (path : string) : result string :=
  if is_var_attribute self path then
    attr <- get_attribute self path ;;
    call (attr_repr self) attr
  else if is_var_data self path then
    var <- get_variable self path ;;
    call (vardata_repr self) var
  else
    Raise (InternalError ("read: unexpected path " ++ path)).

End WithHost.
End NCFS.

(** The adapter: the methods of [NCFSOperations] that hand a call over to
    the [NCFS] instance.  The access check is declared under the name
    [acccess], which is not the name of a FUSE operation. *)
Module NCFSOperations.
Section WithHost.
Context {host : Host}.

Definition acccess (ncfs : NCFS.t) (os : OS) (path : string) (mode : Z) :=
  NCFS.access ncfs os mode.

Definition read (ncfs : NCFS.t) (path : string) (size offset fh : Z) :=
  NCFS.read ncfs path size offset.

Definition write (ncfs : NCFS.t) (path data : string) (offset fh : Z) :=
  NCFS.write ncfs path data offset.

Definition getattr (ncfs : NCFS.t) (os : OS) (path : string) :=
  NCFS.getattr ncfs os path.

Definition readdir (ncfs : NCFS.t) (path : string) (fh : Z) :=
  NCFS.readdir ncfs path.

Definition open (ncfs : NCFS.t) (path : string) (flags : Z) :=
  NCFS.open ncfs path flags.

End WithHost.
End NCFSOperations.

(** ** A concrete host: IEEE 754 doubles and text attributes

    Array elements and time stamps are doubles, given by their 64-bit
    pattern; attribute values are text.  [tobytes] is the eight bytes of the
    pattern, least significant first (the native order of the machines the
    program runs on).  [fmt % x] covers the fragment of Python's formatting
    that the program is run with: literal text, [%%], [%f] and [%.Nf] with a
    one-digit precision, on the exact value of the double, rounded half to
    even.  An element of a numpy array can be subscripted, so [%] takes it
    as it takes a mapping: a format that consumes no argument gives its
    text and is no error, while a second conversion finds no argument left.
    A conversion outside this fragment (a width, [%d], [%e], ...) is
    refused by the model with [ValueError]; nothing below depends on that
    case. *)

Module Double.

Definition t : Type := Z.

Definition sign (w : t) : bool := Z.testbit w 63.
Definition expo (w : t) : Z := (w / 2 ^ 52) mod 2048.
Definition frac (w : t) : Z := w mod 2 ^ 52.

(** The magnitude of a finite double as a fraction [num / den]. *)
Definition magnitude (w : t) : Z * Z :=
  let mant := if expo w =? 0 then frac w else 2 ^ 52 + frac w in
  let ex := (if expo w =? 0 then 1 else expo w) - 1075 in
  if 0 <=? ex then (mant * 2 ^ ex, 1) else (mant, 2 ^ (- ex)).

Definition round_half_even (num den : Z) : Z :=
  let q := num / den in
  let r := num mod den in
  if 2 * r <? den then q
  else if den <? 2 * r then q + 1
  else if Z.even q then q else q + 1.

Definition decimal (n : Z) : string :=
  NilZero.string_of_uint (N.to_uint (Z.to_N n)).

Fixpoint zeros (n : nat) : string :=
  match n with
  | O => EmptyString
  | S n' => String "0" (zeros n')
  end.

Definition pad (p : nat) (s : string) : string :=
  zeros (p - String.length s) ++ s.

(** The conversion [%.pf]. *)
Definition fixed (p : nat) (w : t) : string :=
  let minus := if sign w then "-" else "" in
  if expo w =? 2047 then
    if frac w =? 0 then minus ++ "inf" else "nan"
  else
    let (num, den) := magnitude w in
    let scale := 10 ^ Z.of_nat p in
    let r := round_half_even (num * scale) den in
    minus ++ decimal (r / scale)
          ++ match p with
             | O => ""
             | S _ => "." ++ pad p (decimal (r mod scale))
             end.

Definition digit (c : ascii) : option nat :=
  let n := nat_of_ascii c in
  if ((48 <=? n) && (n <=? 57))%nat then Some (n - 48)%nat else None.

(** [fmt % x] for one double; [arg] is the argument not yet consumed. *)
Fixpoint format (fmt : string) (arg : option t) : result string :=
  match fmt with
  | EmptyString => Ok EmptyString
  | String "%" (String "%" rest) =>
      r <- format rest arg ;; Ok (String "%" r)
  | String "%" (String "f" rest) =>
      match arg with
      | None => Raise (TypeError "not enough arguments for format string")
      | Some x => r <- format rest None ;; Ok (fixed 6 x ++ r)
      end
  | String "%" (String "." (String d (String "f" rest))) =>
      match digit d, arg with
      | None, _ => Raise (ValueError "unsupported format character")
      | Some _, None =>
          Raise (TypeError "not enough arguments for format string")
      | Some p, Some x => r <- format rest None ;; Ok (fixed p x ++ r)
      end
  | String "%" _ => Raise (ValueError "unsupported format character")
  | String c rest => r <- format rest arg ;; Ok (String c r)
  end.

Definition to_bytes (w : t) : string :=
  string_of_list_ascii
    (map (fun i => ascii_of_N (Z.to_N ((w / 2 ^ (8 * Z.of_nat i)) mod 256)))
         (seq 0 8)).

Definition one : t := 4607182418800017408.    (* 0x3FF0000000000000 *)
Definition two : t := 4611686018427387904.    (* 0x4000000000000000 *)

End Double.

#[export] Instance double_host : Host := {|
  pyfloat := Double.t;
  ncattr := string;
  scalar := Double.t;
  str := fun s => s;
  tobytes := Double.to_bytes;
  char_mod := fun fmt x => Double.format fmt (Some x)
|}.

(** ** Sample mounts *)

Module Sample.

Definition os : OS :=
  {| getuid := 1000; getgid := 1000; os_access := fun _ _ => true |}.

(** One variable [temp] with attribute [units = "K"] and payload
    [[1.0, 2.0]]. *)
Definition temp : NcVariable :=
  {| attributes := [("units", "K")];
     values := [Double.one; Double.two] |}.

Definition dataset : Dataset := {| variables := [("temp", temp)] |}.

(** The mount built as [main] builds it, with the format [%.1f]. *)
Definition ncfs : NCFS.t :=
  NCFS.__init__ dataset (VardataAsFlatTextFiles.new "%.1f")
                AttributesAsTextFiles.new Double.one.

(** The same variable with two more attributes, whose names have
    [dimensions] and [DATA_REPR] inside them. *)
Definition temp_noted : NcVariable :=
  {| attributes := [("units", "K");
                    ("dimensions_note", "time");
                    ("DATA_REPR_note", "raw")];
     values := [Double.one; Double.two] |}.

Definition dataset_noted : Dataset :=
  {| variables := [("temp", temp_noted)] |}.

Definition ncfs_noted : NCFS.t :=
  NCFS.__init__ dataset_noted (VardataAsFlatTextFiles.new "%.1f")
                AttributesAsTextFiles.new Double.one.

(** A dataset with no variable at all. *)
Definition dataset_empty : Dataset := {| variables := [] |}.

Definition ncfs_empty : NCFS.t :=
  NCFS.__init__ dataset_empty (VardataAsFlatTextFiles.new "%.1f")
                AttributesAsTextFiles.new Double.one.

End Sample.

(** [s] holds no path separator. *)
Definition no_slash (s : string) : Prop := contains "/" s = false.

(** * Properties *)

(** ** Bit-level facts about [makeIntoDir] *)

Section MakeIntoDirBits.

Variable T : Type.
Implicit Type d : statdict T.

Lemma land_pow2_eqb (m k : Z) :
  0 <= k -> (Z.land m (2 ^ k) =? 0) = negb (Z.testbit m k).
Proof.
  intros Hk.
  destruct (Z.testbit m k) eqn:Hb; simpl.
  - apply Z.eqb_neq. intros H0.
    assert (Hbit : Z.testbit (Z.land m (2 ^ k)) k = true).
    { rewrite Z.land_spec, Hb, Z.pow2_bits_true by lia. reflexivity. }
    rewrite H0, Z.bits_0 in Hbit. discriminate.
  - apply Z.eqb_eq. apply Z.bits_inj'. intros n Hn.
    rewrite Z.land_spec, Z.bits_0, Z.pow2_bits_eqb by lia.
    destruct (Z.eqb_spec k n) as [->|_].
    + rewrite Hb. reflexivity.
    + apply andb_false_r.
Qed.

(** One loop pass with read bit [r] and execute bit [x], bit by bit. *)
Lemma makeIntoDir_step_bits d (r x j : Z) :
  0 <= r -> 0 <= x -> 0 <= j ->
  Z.testbit (st_mode (makeIntoDir_step d (2 ^ r, 2 ^ x))) j
  = Z.testbit (st_mode d) j || (Z.testbit (st_mode d) r && (x =? j)).
Proof.
  intros Hr Hx Hj. unfold makeIntoDir_step. simpl fst. simpl snd.
  rewrite land_pow2_eqb, negb_involutive by assumption.
  destruct (Z.testbit (st_mode d) r); simpl.
  - rewrite Z.lor_spec, Z.pow2_bits_eqb by assumption. reflexivity.
  - rewrite orb_false_r. reflexivity.
Qed.

(** The mode word after [makeIntoDir], one bit at a time, in terms of
    the bits of the input word. *)
Lemma makeIntoDir_bits d (j : Z) :
  0 <= j ->
  Z.testbit (st_mode (makeIntoDir d)) j
  = let b := xorb (Z.testbit (st_mode d) j) (15 =? j) || (14 =? j) in
    b || (Z.testbit (st_mode d) 8 && (6 =? j))
      || (Z.testbit (st_mode d) 5 && (3 =? j))
      || (Z.testbit (st_mode d) 2 && (0 =? j)).
Proof.
  intros Hj. unfold makeIntoDir. cbn [fold_left].
  change (4, 1) with (2 ^ 2, 2 ^ 0).
  change (32, 8) with (2 ^ 5, 2 ^ 3).
  change (256, 64) with (2 ^ 8, 2 ^ 6).
  rewrite !makeIntoDir_step_bits by lia.
  cbn [st_mode set_st_mode].
  change 32768 with (2 ^ 15). change 16384 with (2 ^ 14).
  rewrite !Z.lor_spec, !Z.lxor_spec, !Z.pow2_bits_eqb by lia.
  cbn [Z.eqb]. rewrite !andb_false_r, !orb_false_r, !xorb_false_r.
  cbv zeta. reflexivity.
Qed.

End MakeIntoDirBits.

(** ** Facts about the string operations *)

Section PyFacts.

Lemma contains_empty (c : ascii) (needle : string) :
  contains (String c needle) EmptyString = false.
Proof. reflexivity. Qed.

Lemma prefix_head_mismatch (c a : ascii) (needle s : string) :
  c <> a -> String.prefix (String c needle) (String a s) = false.
Proof.
  intros Hca. simpl. destruct (ascii_dec c a); [contradiction | reflexivity].
Qed.

(** Stripping leading characters that the needle does not start with
    neither creates nor destroys an occurrence of the needle. *)
Lemma contains_lstrip (chars : string) (c : ascii) (needle s : string) :
  mem_char c chars = false ->
  contains (String c needle) (lstrip chars s) = contains (String c needle) s.
Proof.
  intros Hc. induction s as [|a s IH]; [reflexivity|].
  cbn [lstrip]. destruct (mem_char a chars) eqn:Ha; [|reflexivity].
  rewrite IH. cbn [contains].
  rewrite prefix_head_mismatch; [reflexivity|].
  intros ->. congruence.
Qed.

Lemma contains_cons_mismatch (c a : ascii) (needle s : string) :
  c <> a ->
  contains (String c needle) (String a s) = contains (String c needle) s.
Proof.
  intros Hca. cbn [contains]. rewrite prefix_head_mismatch by assumption.
  reflexivity.
Qed.

Lemma substring_whole (s : string) :
  String.substring 0 (String.length s) s = s.
Proof.
  induction s as [|a s IH]; [reflexivity|]. simpl. now rewrite IH.
Qed.

Lemma substring_past_end (s : string) (n m : nat) :
  (String.length s <= n)%nat -> String.substring n m s = EmptyString.
Proof.
  revert n. induction s as [|a s IH]; intros n Hn.
  - destruct n, m; reflexivity.
  - destruct n as [|n]; [simpl in Hn; lia|].
    simpl. apply IH. simpl in Hn. lia.
Qed.

Lemma substring_zero_length (s : string) (n : nat) :
  String.substring n 0 s = EmptyString.
Proof.
  revert n. induction s as [|a s IH]; intros [|n]; simpl; auto.
Qed.

(** Asking for more bytes than are left gives what is left. *)
Lemma substring_clip (s : string) (n m : nat) :
  String.substring n (Nat.min m (String.length s - n)) s
  = String.substring n m s.
Proof.
  revert n m. induction s as [|a s IH]; intros n m.
  - destruct n, m; reflexivity.
  - destruct n as [|n].
    + destruct m as [|m]; [reflexivity|].
      cbn [String.length Nat.sub Nat.min String.substring].
      f_equal. specialize (IH 0%nat m).
      rewrite Nat.sub_0_r in IH. exact IH.
    + cbn [String.length Nat.sub String.substring]. apply IH.
Qed.

(** The byte at position [i] of a substring. *)
Lemma substring_get (s : string) (n m i : nat) :
  String.get i (String.substring n m s)
  = if (i <? m)%nat then String.get (n + i) s else None.
Proof.
  destruct (Nat.ltb_spec i m) as [Hlt|Hge].
  - rewrite Nat.add_comm. apply substring_correct1. exact Hlt.
  - apply substring_correct2. exact Hge.
Qed.

Lemma len_nonneg (s : string) : 0 <= len s.
Proof. unfold len. lia. Qed.

Lemma slice_whole (s : string) : slice s 0 (0 + len s) = s.
Proof.
  unfold slice, adjust. pose proof (len_nonneg s) as Hn.
  rewrite Z.add_0_l. cbn [Z.ltb Z.compare].
  replace (len s <? 0) with false by (symmetry; apply Z.ltb_ge; lia).
  rewrite Z.min_l, Z.min_id by lia.
  destruct (Z.ltb_spec 0 (len s)) as [Hlt|Hge].
  - rewrite Z.sub_0_r. unfold len. rewrite Nat2Z.id. apply substring_whole.
  - destruct s; [reflexivity|]. unfold len in Hge. simpl in Hge. lia.
Qed.

Lemma adjust_le (n i : Z) : 0 <= n -> adjust n i <= n.
Proof. intros Hn. unfold adjust. destruct (i <? 0) eqn:E; lia. Qed.

Lemma slice_past_end (s : string) (lo hi : Z) :
  len s < lo -> slice s lo hi = EmptyString.
Proof.
  intros Hlo. unfold slice. pose proof (len_nonneg s) as Hn.
  pose proof (adjust_le (len s) hi Hn) as Hh.
  assert (Hl : adjust (len s) lo = len s).
  { unfold adjust. destruct (Z.ltb_spec lo 0); lia. }
  rewrite Hl. destruct (Z.ltb_spec (len s) (adjust (len s) hi)); [lia|].
  reflexivity.
Qed.

Lemma slice_window (s : string) (offset size : Z) :
  0 <= offset -> 0 <= size ->
  slice s offset (offset + size)
  = String.substring (Z.to_nat offset) (Z.to_nat size) s.
Proof.
  intros Ho Hs. unfold slice, adjust. pose proof (len_nonneg s) as Hn.
  destruct (Z.ltb_spec offset 0) as [?|_]; [lia|].
  destruct (Z.ltb_spec (offset + size) 0) as [?|_]; [lia|].
  destruct (Z.ltb_spec (Z.min offset (len s)) (Z.min (offset + size) (len s)))
    as [Hlt|Hge].
  - rewrite <- (substring_clip s (Z.to_nat offset) (Z.to_nat size)).
    f_equal; unfold len in *; lia.
  - destruct (Z.le_gt_cases (len s) offset) as [Hpast|Hin].
    + symmetry. apply substring_past_end. unfold len in Hpast. lia.
    + assert (size = 0) as -> by lia.
      symmetry. apply substring_zero_length.
Qed.

End PyFacts.

(** ** Facts about the operations of [NCFS] *)

Section NCFSFacts.

Context {host : Host}.
Implicit Type self : NCFS.t.

(** [read] is the window of [representation]. *)
Lemma read_representation self (path : string) (size offset : Z) :
  NCFS.read self path size offset
  = (data <- NCFS.representation self path ;;
     Ok (slice data offset (offset + size))).
Proof.
  unfold NCFS.read, NCFS.representation.
  destruct (NCFS.is_var_attribute self path).
  - destruct (NCFS.get_attribute self path); reflexivity.
  - destruct (NCFS.is_var_data self path); [|reflexivity].
    destruct (NCFS.get_variable self path); reflexivity.
Qed.

(** [open] returns 0 exactly on the paths [is_file] accepts, and the
    [raise] statement of the other branch ends in [NameError]. *)
Lemma open_is_file self (path : string) (flags : Z) :
  NCFS.open self path flags
  = if NCFS.is_file self path then Ok 0
    else Raise (NameError "FuseOSOSError").
Proof. unfold NCFS.open. destruct (NCFS.is_file self path); reflexivity. Qed.

(** With [dataset_file] holding a path, [access] asks [os.access] for
    read permission when asked for execute permission, and raises
    [EACCES] exactly when [os.access] says no. *)
Lemma access_with_dataset_file self (os : OS) (file : string) (mode : Z) :
  NCFS.dataset_file self = Some (Some file) ->
  NCFS.access self os mode
  = if os_access os file (if mode =? X_OK then R_OK else mode)
    then Ok tt else Raise (FuseOSError EACCES).
Proof.
  intros Hfile. unfold NCFS.access. rewrite Hfile.
  destruct (os_access os file _); reflexivity.
Qed.

End NCFSFacts.

(** ** The shape of the paths [/v/x] *)

Section PathShape.

Lemma no_slash_cons (a : ascii) (s : string) :
  no_slash (String a s) -> a <> "/"%char /\ no_slash s.
Proof.
  unfold no_slash. cbn [contains String.prefix].
  destruct (ascii_dec "/" a) as [<-|Hne].
  - destruct s; discriminate.
  - intros H. split; [congruence | exact H].
Qed.

Lemma split_not_nil (sep : ascii) (s : string) : split sep s <> [].
Proof.
  destruct s as [|a s]; cbn [split]; [discriminate|].
  destruct (Ascii.eqb a sep); [discriminate|].
  destruct (split sep s); discriminate.
Qed.

(** [(s + sep + x).split(sep) == s.split(sep) + x.split(sep)] *)
Lemma split_app (sep : ascii) (s x : string) :
  split sep (s ++ String sep x) = (split sep s ++ split sep x)%list.
Proof.
  induction s as [|a s IH].
  - cbn [String.append split]. rewrite Ascii.eqb_refl. reflexivity.
  - cbn [String.append split]. destruct (Ascii.eqb a sep); rewrite IH.
    + reflexivity.
    + pose proof (split_not_nil sep s) as Hne.
      destruct (split sep s); [contradiction | reflexivity].
Qed.

Lemma split_no_slash (x : string) : no_slash x -> split "/" x = [x].
Proof.
  induction x as [|a x IH]; intros Hx; [reflexivity|].
  apply no_slash_cons in Hx as [Ha Hx]. cbn [split].
  apply Ascii.eqb_neq in Ha. rewrite Ha, (IH Hx). reflexivity.
Qed.

Lemma split1_no_slash (v x : string) :
  no_slash v -> split1 "/" (v ++ String "/" x) = [v; x].
Proof.
  induction v as [|a v IH]; intros Hv; [reflexivity|].
  apply no_slash_cons in Hv as [Ha Hv]. cbn [String.append split1].
  apply Ascii.eqb_neq in Ha. rewrite Ha, (IH Hv). reflexivity.
Qed.

Lemma final_app (l1 l2 : list string) :
  l2 <> [] -> Py.final (l1 ++ l2) = Py.final l2.
Proof.
  intros Hne. unfold Py.final. induction l1 as [|h l1 IH]; [reflexivity|].
  cbn [app last]. destruct (l1 ++ l2)%list eqn:E; [|exact IH].
  apply app_eq_nil in E as [_ E]. contradiction.
Qed.

(** The last segment of [s/x] is [x]. *)
Lemma final_segment (s x : string) :
  no_slash x -> Py.final (split "/" (s ++ String "/" x)) = x.
Proof.
  intros Hx. rewrite split_app, final_app by apply split_not_nil.
  rewrite (split_no_slash x Hx). reflexivity.
Qed.

Lemma lstrip_no_slash (v s : string) :
  v <> EmptyString -> no_slash v -> lstrip "/" (v ++ s) = v ++ s.
Proof.
  intros Hne Hv. destruct v as [|a v]; [contradiction|].
  apply no_slash_cons in Hv as [Ha _]. cbn [String.append lstrip mem_char].
  assert (Hb : Ascii.eqb "/" a = false) by (apply Ascii.eqb_neq; congruence).
  rewrite Hb. reflexivity.
Qed.

Lemma lstrip_idempotent (chars s : string) :
  lstrip chars (lstrip chars s) = lstrip chars s.
Proof.
  induction s as [|a s IH]; [reflexivity|]. cbn [lstrip].
  destruct (mem_char a chars) eqn:Ha; [exact IH|].
  cbn [lstrip]. rewrite Ha. reflexivity.
Qed.

End PathShape.

Section AttributePaths.

Context {host : Host}.
Variable self : NCFS.t.
Variable os : OS.

(** The variable [v] of the dataset and a segment [x], with no separator
    in either, where the relative path [v/x] holds none of the three
    marker substrings and is not itself the name of a variable. *)
Variables (v x : string) (var : NcVariable).
Hypothesis v_in_dataset : assoc v (variables (NCFS.dataset self)) = Some var.
Hypothesis v_not_empty : v <> EmptyString.
Hypothesis v_no_slash : no_slash v.
Hypothesis x_no_slash : no_slash x.
Hypothesis no_trash : contains ".Trash" (v ++ String "/" x) = false.
Hypothesis no_data : contains "DATA_REPR" (v ++ String "/" x) = false.
Hypothesis no_dims : contains "dimensions" (v ++ String "/" x) = false.
Hypothesis not_a_variable :
  has_key (v ++ String "/" x) (variables (NCFS.dataset self)) = false.

Lemma attribute_path_lstrip :
  lstrip "/" (String "/" (v ++ String "/" x)) = v ++ String "/" x.
Proof.
  cbn [lstrip mem_char]. rewrite Ascii.eqb_refl.
  cbn [orb]. apply lstrip_no_slash; assumption.
Qed.

Lemma attribute_path_rel_lstrip :
  lstrip "/" (v ++ String "/" x) = v ++ String "/" x.
Proof. rewrite <- attribute_path_lstrip. apply lstrip_idempotent. Qed.

Lemma attribute_path_is_attribute :
  NCFS.is_var_attribute self (String "/" (v ++ String "/" x)) = true
  /\ NCFS.is_var_attribute self (v ++ String "/" x) = true.
Proof.
  unfold NCFS.is_var_attribute, NCFS.is_var_dir, NCFS.is_var_data,
    NCFS.is_var_dimensions.
  rewrite attribute_path_lstrip, attribute_path_rel_lstrip.
  rewrite !contains_cons_mismatch by discriminate.
  rewrite no_trash, no_data, no_dims, not_a_variable. split; reflexivity.
Qed.

Lemma attribute_path_lookup :
  NCFS.get_attribute self (String "/" (v ++ String "/" x)) = getncattr var x
  /\ NCFS.get_attribute self (v ++ String "/" x) = getncattr var x.
Proof.
  unfold NCFS.get_attribute, NCFS.get_varname, NCFS.get_attrname.
  rewrite attribute_path_lstrip, attribute_path_rel_lstrip.
  rewrite (final_segment v x x_no_slash).
  change (String "/" (v ++ String "/" x))
    with (String "/" v ++ String "/" x).
  rewrite (final_segment (String "/" v) x x_no_slash).
  rewrite (split1_no_slash v x v_no_slash). cbn [Py.first hd].
  unfold getitem. rewrite v_in_dataset. split; reflexivity.
Qed.

(** On such a path [getattr] and [read] take their attribute branch:
    the attribute [x] of [v] is looked up, [getattr] puts the size the
    attribute plugin reports into the regular-file record, and [read]
    cuts its window from what the attribute plugin returns.  A missing
    attribute comes out as the lookup failure of [getncattr]. *)
Lemma attribute_path_dispatch (count offset : Z) :
  NCFS.getattr self os (String "/" (v ++ String "/" x))
  = (attr <- getncattr var x ;;
     n <- size (NCFS.attr_repr self) attr ;;
     Ok (set_st_size (NCFS.default_stat self os) n))
  /\ NCFS.read self (String "/" (v ++ String "/" x)) count offset
     = (attr <- getncattr var x ;;
        data <- call (NCFS.attr_repr self) attr ;;
        Ok (slice data offset (offset + count))).
Proof.
  destruct attribute_path_is_attribute as [Hpath Hrel].
  destruct attribute_path_lookup as [Lpath Lrel].
  split.
  - unfold NCFS.getattr. rewrite attribute_path_lstrip.
    assert (Hne : String.eqb (v ++ String "/" x) "" = false).
    { apply String.eqb_neq. destruct v; [contradiction|].
      discriminate. }
    rewrite Hne. unfold NCFS.is_blacklisted.
    rewrite no_trash. cbn [NCFS.exists_ negb].
    assert (Hdir : NCFS.is_var_dir self (v ++ String "/" x) = false).
    { unfold NCFS.is_var_dir. rewrite attribute_path_rel_lstrip.
      exact not_a_variable. }
    rewrite Hdir, Hrel, Lrel. reflexivity.
  - unfold NCFS.read. rewrite Hpath, Lpath. reflexivity.
Qed.

End AttributePaths.

Section DimensionsPaths.

Context {host : Host}.
Variable self : NCFS.t.
Variable os : OS.

Lemma contains_append (needle s1 s2 : string) :
  contains needle s2 = true -> contains needle (s1 ++ s2) = true.
Proof.
  intros H. induction s1 as [|a s1 IH]; [exact H|].
  cbn [String.append contains]. rewrite IH. apply orb_true_r.
Qed.

(** For a name [v] with no separator, where [v/dimensions] holds neither
    [.Trash] nor [DATA_REPR] and is not itself the name of a variable. *)
Variable v : string.
Hypothesis v_not_empty : v <> EmptyString.
Hypothesis v_no_slash : no_slash v.
Hypothesis no_trash : contains ".Trash" (v ++ "/dimensions") = false.
Hypothesis no_data : contains "DATA_REPR" (v ++ "/dimensions") = false.
Hypothesis not_a_variable :
  has_key (v ++ "/dimensions") (variables (NCFS.dataset self)) = false.

(** No branch of [getattr] or [read] serves the [dimensions] node of a
    variable: both end in [InternalError]. *)
Lemma dimensions_path_unserved (count offset : Z) :
  NCFS.getattr self os (String "/" (v ++ "/dimensions"))
  = Raise (InternalError ("getattr: unexpected path " ++ v ++ "/dimensions"))
  /\ NCFS.read self (String "/" (v ++ "/dimensions")) count offset
     = Raise (InternalError
                ("read: unexpected path /" ++ v ++ "/dimensions")).
Proof.
  assert (Hstrip : lstrip "/" (String "/" (v ++ "/dimensions"))
                   = v ++ "/dimensions").
  { cbn [lstrip mem_char]. rewrite Ascii.eqb_refl. cbn [orb].
    apply lstrip_no_slash; assumption. }
  assert (Hstrip' : lstrip "/" (v ++ "/dimensions") = v ++ "/dimensions").
  { apply lstrip_no_slash; assumption. }
  assert (Hdims : contains "dimensions" (v ++ "/dimensions") = true).
  { apply contains_append. reflexivity. }
  split.
  - unfold NCFS.getattr. rewrite Hstrip.
    assert (Hne : String.eqb (v ++ "/dimensions") "" = false).
    { apply String.eqb_neq. destruct v; [contradiction | discriminate]. }
    rewrite Hne. unfold NCFS.is_blacklisted. rewrite no_trash.
    cbn [NCFS.exists_ negb].
    unfold NCFS.is_var_attribute, NCFS.is_var_dir, NCFS.is_var_data,
      NCFS.is_var_dimensions.
    rewrite Hstrip', not_a_variable, no_trash, no_data, Hdims.
    reflexivity.
  - unfold NCFS.read, NCFS.is_var_attribute, NCFS.is_var_dir,
      NCFS.is_var_data, NCFS.is_var_dimensions.
    rewrite Hstrip, !contains_cons_mismatch by discriminate.
    rewrite not_a_variable, no_trash, no_data, Hdims. reflexivity.
Qed.

End DimensionsPaths.

(** ** The claims *)

(** C1 on the code: [temp] has the attributes [dimensions_note] and
    [DATA_REPR_note], and [readdir] lists both.  On
    [/temp/dimensions_note], [getattr] and [read] end in their
    [InternalError] branch.  On [/temp/DATA_REPR_note], [getattr] reports
    the size of the variable data (8) and [read] returns the variable data,
    where the attribute text is ["raw\n"], of size 4. *)
Theorem marker_substring_hides_attribute :
  NCFS.readdir Sample.ncfs_noted "/temp"
  = Ok ["."; ".."; "units"; "dimensions_note"; "DATA_REPR_note"; "DATA_REPR"]
  /\ NCFS.getattr Sample.ncfs_noted Sample.os "/temp/dimensions_note"
     = Raise (InternalError "getattr: unexpected path temp/dimensions_note")
  /\ NCFS.read Sample.ncfs_noted "/temp/dimensions_note" 4096 0
     = Raise (InternalError "read: unexpected path /temp/dimensions_note")
  /\ size (NCFS.attr_repr Sample.ncfs_noted) "raw" = Ok 4
  /\ NCFS.getattr Sample.ncfs_noted Sample.os "/temp/DATA_REPR_note"
     = Ok (mkstat Double.one Double.one 1000 33188 Double.one 1 8 1000)
  /\ NCFS.read Sample.ncfs_noted "/temp/DATA_REPR_note" 4096 0
     = Ok ("1.0" ++ newline ++ "2.0" ++ newline).
Proof. repeat split. Qed.

(** C2 on the code: [getattr] on [/temp/dimensions] ends in its
    [InternalError] branch; so does [read] on that path and on a path with
    [.Trash] in it, both of which [open] accepts. *)
Theorem internal_error_branch_reached :
  NCFS.getattr Sample.ncfs Sample.os "/temp/dimensions"
  = Raise (InternalError "getattr: unexpected path temp/dimensions")
  /\ NCFS.open Sample.ncfs "/temp/dimensions" 0 = Ok 0
  /\ NCFS.read Sample.ncfs "/temp/dimensions" 4096 0
     = Raise (InternalError "read: unexpected path /temp/dimensions")
  /\ NCFS.open Sample.ncfs "/.Trash-1000" 0 = Ok 0
  /\ NCFS.read Sample.ncfs "/.Trash-1000" 4096 0
     = Raise (InternalError "read: unexpected path /.Trash-1000").
Proof. repeat split. Qed.

(** C3 as stated fails: a word with the owner execute bit (0o100) set and
    the owner read bit (0o400) clear, 0o100100, keeps its execute bit, so
    the output has an execute bit whose read bit was not set in the
    input. *)
Lemma makeIntoDir_keeps_execute_bit :
  let d := mkstat tt tt 0 32832 tt 1 4096 0 in
  ~ (Z.testbit (st_mode (makeIntoDir d)) 14 = true
     /\ (Z.testbit (st_mode (makeIntoDir d)) 6 = true
         <-> Z.testbit (st_mode d) 8 = true)
     /\ (Z.testbit (st_mode (makeIntoDir d)) 3 = true
         <-> Z.testbit (st_mode d) 5 = true)
     /\ (Z.testbit (st_mode (makeIntoDir d)) 0 = true
         <-> Z.testbit (st_mode d) 2 = true)).
Proof.
  cbv zeta. intros (_ & [Hexec _] & _).
  specialize (Hexec eq_refl). vm_compute in Hexec. discriminate.
Qed.

(** C3, amended: for every input mode word, [makeIntoDir] sets the
    directory type bit (0o040000), and for each of owner, group and other
    the execute bit is set in the output if and only if the read bit or the
    execute bit of that class was set in the input. *)
Theorem makeIntoDir_directory_and_execute_bits :
  forall (T : Type) (d : statdict T),
    Z.testbit (st_mode (makeIntoDir d)) 14 = true
    /\ (Z.testbit (st_mode (makeIntoDir d)) 6 = true
        <-> Z.testbit (st_mode d) 8 = true \/ Z.testbit (st_mode d) 6 = true)
    /\ (Z.testbit (st_mode (makeIntoDir d)) 3 = true
        <-> Z.testbit (st_mode d) 5 = true \/ Z.testbit (st_mode d) 3 = true)
    /\ (Z.testbit (st_mode (makeIntoDir d)) 0 = true
        <-> Z.testbit (st_mode d) 2 = true \/ Z.testbit (st_mode d) 0 = true).
Proof.
  intros T d. rewrite !makeIntoDir_bits by lia. cbv zeta.
  generalize (Z.testbit (st_mode d) 14), (Z.testbit (st_mode d) 8),
             (Z.testbit (st_mode d) 6), (Z.testbit (st_mode d) 5),
             (Z.testbit (st_mode d) 3), (Z.testbit (st_mode d) 2),
             (Z.testbit (st_mode d) 0).
  intros b14 r8 x6 r5 x3 r2 x0. cbn.
  repeat split; destruct b14, r8, x6, r5, x3, r2, x0; cbn;
    intuition congruence.
Qed.

(** C4: for each of the three plugin classes (binary variable data,
    flat-text variable data, attribute text) and every value [x] that the
    plugin turns into a byte string [data], [size(x)] is the length of
    [data]. *)
Theorem size_is_len_of_representation :
  forall (host : Host) (A : Type) (s : strategy A) (x : A) (data : string),
    call (plugin s) x = Ok data ->
    size (plugin s) x = Ok (len data).
Proof.
  intros host A s x data Hcall.
  destruct s; cbn [plugin size call] in *.
  - unfold VardataAsBinaryFiles.new, VardataAsBinaryFiles.size in *.
    cbn [size call] in *. rewrite Hcall. reflexivity.
  - unfold VardataAsFlatTextFiles.new, VardataAsFlatTextFiles.size in *.
    cbn [size call] in *. rewrite Hcall. reflexivity.
  - unfold AttributesAsTextFiles.new, AttributesAsTextFiles.size in *.
    cbn [size call] in *. rewrite Hcall. reflexivity.
Qed.

Lemma size_is_len_of_representation_witness :
  call (plugin (FlatTextData "%.1f")) Sample.temp
  = Ok ("1.0" ++ newline ++ "2.0" ++ newline)
  /\ size (plugin (FlatTextData "%.1f")) Sample.temp = Ok 8.
Proof.
  split; [reflexivity|].
  exact (size_is_len_of_representation double_host _ (FlatTextData "%.1f")
           Sample.temp ("1.0" ++ newline ++ "2.0" ++ newline) eq_refl).
Defined.

(** C5: when the whole representation of the node at [path] is [data],
    [read(path, len(data), 0)] returns [data]; a read at an offset beyond
    [len(data)] returns the empty string; and a read of [count] bytes at
    [offset] returns the bytes of [data] at the positions from [offset] up
    to, not including, [offset + count] (those of them that exist): byte [i]
    of the result is byte [offset + i] of [data] for [i < count], and there
    is no other.  Counts and offsets are the non-negative numbers of a read
    request. *)
Theorem read_is_window_of_representation :
  forall (host : Host) (self : NCFS.t) (path data : string),
    NCFS.representation self path = Ok data ->
    NCFS.read self path (len data) 0 = Ok data
    /\ (forall count offset : Z,
          len data < offset ->
          NCFS.read self path count offset = Ok EmptyString)
    /\ (forall count offset : Z,
          0 <= count -> 0 <= offset ->
          exists out : string,
            NCFS.read self path count offset = Ok out
            /\ out = String.substring (Z.to_nat offset) (Z.to_nat count) data
            /\ forall i : nat,
                 String.get i out
                 = if Z.of_nat i <? count
                   then String.get (Z.to_nat offset + i) data
                   else None).
Proof.
  intros host self path data Hrepr. split; [|split].
  - rewrite read_representation, Hrepr. cbn [Py.bind].
    rewrite slice_whole. reflexivity.
  - intros count offset Hpast.
    rewrite read_representation, Hrepr. cbn [Py.bind].
    rewrite slice_past_end by assumption. reflexivity.
  - intros count offset Hc Ho.
    exists (String.substring (Z.to_nat offset) (Z.to_nat count) data).
    split; [|split; [reflexivity|]].
    + rewrite read_representation, Hrepr. cbn [Py.bind].
      rewrite slice_window by assumption. reflexivity.
    + intros i. rewrite substring_get.
      destruct (Nat.ltb_spec i (Z.to_nat count));
        destruct (Z.ltb_spec (Z.of_nat i) count); try reflexivity; lia.
Qed.

Lemma read_is_window_of_representation_witness :
  NCFS.read Sample.ncfs "/temp/DATA_REPR" 8 0
  = Ok ("1.0" ++ newline ++ "2.0" ++ newline)
  /\ NCFS.read Sample.ncfs "/temp/DATA_REPR" 100 9 = Ok EmptyString
  /\ NCFS.read Sample.ncfs "/temp/DATA_REPR" 3 4 = Ok "2.0".
Proof.
  pose proof (read_is_window_of_representation double_host Sample.ncfs
                "/temp/DATA_REPR" ("1.0" ++ newline ++ "2.0" ++ newline)
                eq_refl) as (Hall & Hpast & Hwin).
  split; [exact Hall|]. split.
  - apply Hpast. vm_compute. reflexivity.
  - destruct (Hwin 3 4) as (out & Hread & Hout & _); [lia | lia |].
    rewrite Hread, Hout. reflexivity.
Defined.

(** C6 on the code: the root, which [getattr] reports as a directory, is
    opened with result 0; and opening the variable directory [/temp] ends
    in [NameError], the exception class named in the [raise] statement
    being bound nowhere. *)
Theorem open_root_succeeds :
  NCFS.open Sample.ncfs "/" 0 = Ok 0
  /\ NCFS.getattr Sample.ncfs Sample.os "/"
     = Ok (mkstat Double.one Double.one 1000 16877 Double.one 1 4096 1000)
  /\ S_ISDIR 16877 = true
  /\ NCFS.open Sample.ncfs "/temp" 0 = Raise (NameError "FuseOSOSError").
Proof. repeat split. Qed.

(** C7: the mount of one variable [temp] with [units = "K"] and payload
    [[1.0, 2.0]], flat text with [%.1f]: [/temp] is a directory;
    [/temp/units] has size 2 and content ["K\n"]; [/temp/DATA_REPR] has size
    8 and content ["1.0\n2.0\n"]; [/temp] lists exactly [.], [..], [units]
    and [DATA_REPR], and [/] lists exactly [.], [..] and [temp]. *)
Theorem sample_mount_end_to_end :
  forall os : OS,
    let t0 := NCFS.mount_time Sample.ncfs in
    let file n := mkstat t0 t0 (getgid os) 33188 t0 1 n (getuid os) in
    (NCFS.getattr Sample.ncfs os "/temp"
     = Ok (mkstat t0 t0 (getgid os) 16877 t0 1 4096 (getuid os))
     /\ S_ISDIR 16877 = true)
    /\ (NCFS.getattr Sample.ncfs os "/temp/units" = Ok (file 2)
        /\ S_ISREG 33188 = true
        /\ NCFS.read Sample.ncfs "/temp/units" 2 0 = Ok ("K" ++ newline))
    /\ (NCFS.getattr Sample.ncfs os "/temp/DATA_REPR" = Ok (file 8)
        /\ NCFS.read Sample.ncfs "/temp/DATA_REPR" 8 0
           = Ok ("1.0" ++ newline ++ "2.0" ++ newline))
    /\ (exists names,
           NCFS.readdir Sample.ncfs "/temp" = Ok names
           /\ forall n, In n names <-> In n ["."; ".."; "units"; "DATA_REPR"])
    /\ (exists names,
           NCFS.readdir Sample.ncfs "/" = Ok names
           /\ forall n, In n names <-> In n ["."; ".."; "temp"]).
Proof.
  intros os t0 file. repeat split; try reflexivity.
  - exists ["."; ".."; "units"; "DATA_REPR"]. split; [reflexivity | tauto].
  - exists ["."; ".."; "temp"]. split; [reflexivity | tauto].
Qed.


(** C9: on every path that holds the substring [.Trash], [getattr]
    succeeds and returns the untouched default record of a regular file
    (mode 0o100644, one link, size 4096, the mount time, the ids of the
    process); the record is the same whatever the dataset, for two mounts
    made at the same time. *)
Theorem getattr_blacklisted_ignores_dataset :
  forall (host : Host) (os : OS) (ds1 ds2 : Dataset)
         (vardata_repr : Plugin NcVariable) (attr_repr : Plugin ncattr)
         (now : pyfloat) (path : string),
    contains ".Trash" path = true ->
    let stub := mkstat now now (getgid os) 33188 now 1 4096 (getuid os) in
    NCFS.getattr (NCFS.__init__ ds1 vardata_repr attr_repr now) os path
    = Ok stub
    /\ NCFS.getattr (NCFS.__init__ ds2 vardata_repr attr_repr now) os path
       = Ok stub
    /\ S_ISREG (st_mode stub) = true.
Proof.
  intros host os ds1 ds2 vr ar now path Htrash stub.
  assert (Hstripped : contains ".Trash" (lstrip "/" path) = true).
  { rewrite contains_lstrip; [exact Htrash | reflexivity]. }
  assert (Hne : String.eqb (lstrip "/" path) "" = false).
  { destruct (lstrip "/" path); [discriminate Hstripped | reflexivity]. }
  assert (Hany : forall ds,
             NCFS.getattr (NCFS.__init__ ds vr ar now) os path = Ok stub).
  { intros ds. unfold NCFS.getattr, NCFS.is_blacklisted.
    rewrite Hne, Hstripped. reflexivity. }
  repeat split; [apply Hany | apply Hany].
Qed.

Lemma getattr_blacklisted_ignores_dataset_witness :
  contains ".Trash" "/.Trash-1000/files" = true
  /\ NCFS.getattr Sample.ncfs Sample.os "/.Trash-1000/files"
     = NCFS.getattr Sample.ncfs_empty Sample.os "/.Trash-1000/files".
Proof.
  split; [reflexivity|].
  destruct (getattr_blacklisted_ignores_dataset double_host Sample.os
              Sample.dataset Sample.dataset_empty
              (VardataAsFlatTextFiles.new "%.1f") AttributesAsTextFiles.new
              Double.one "/.Trash-1000/files" eq_refl) as (H1 & H2 & _).
  exact (eq_trans H1 (eq_sym H2)).
Defined.

(** C10 on the code: an instance built by the constructor has no
    [dataset_file] attribute, so [access] ends in [AttributeError] for every
    mode, whatever the permissions of the backing file; no permission check
    is reached. *)
Theorem access_raises_attribute_error :
  forall (host : Host) (ds : Dataset) (vardata_repr : Plugin NcVariable)
         (attr_repr : Plugin ncattr) (now : pyfloat) (os : OS) (mode : Z),
    NCFS.access (NCFS.__init__ ds vardata_repr attr_repr now) os mode
    = Raise (AttributeError "dataset_file").
Proof. reflexivity. Qed.

(** * Further properties of the code *)

(** ** [makeIntoDir] *)

Section MakeIntoDirMore.

Variable T : Type.
Implicit Type d : statdict T.

(** The file type field of a mode word (mask 0o170000) reads "directory"
    exactly when, of the bits 12 to 15, bit 14 alone is set. *)
Lemma S_ISDIR_bits (m : Z) :
  S_ISDIR m = true
  <-> Z.testbit m 15 = false /\ Z.testbit m 14 = true
      /\ Z.testbit m 13 = false /\ Z.testbit m 12 = false.
Proof.
  unfold S_ISDIR. rewrite Z.eqb_eq. split.
  - intros H.
    assert (Hbit : forall k, Z.testbit m k && Z.testbit 61440 k
                             = Z.testbit 16384 k).
    { intros k. rewrite <- Z.land_spec, H. reflexivity. }
    pose proof (Hbit 15) as H15. pose proof (Hbit 14) as H14.
    pose proof (Hbit 13) as H13. pose proof (Hbit 12) as H12.
    change (Z.testbit 61440 15) with true in H15.
    change (Z.testbit 61440 14) with true in H14.
    change (Z.testbit 61440 13) with true in H13.
    change (Z.testbit 61440 12) with true in H12.
    change (Z.testbit 16384 15) with false in H15.
    change (Z.testbit 16384 14) with true in H14.
    change (Z.testbit 16384 13) with false in H13.
    change (Z.testbit 16384 12) with false in H12.
    rewrite andb_true_r in H15, H14, H13, H12. auto.
  - intros (H15 & H14 & H13 & H12).
    apply Z.bits_inj'. intros n Hn. rewrite Z.land_spec.
    change 16384 with (2 ^ 14). rewrite Z.pow2_bits_eqb by lia.
    change 61440 with (Z.shiftl 15 12).
    destruct (Z.lt_ge_cases n 12) as [Hlow|Hge].
    + rewrite Z.shiftl_spec_low by assumption. rewrite andb_false_r.
      symmetry. apply Z.eqb_neq. lia.
    + rewrite Z.shiftl_spec by assumption.
      destruct (Z.lt_ge_cases 15 n) as [Hhigh|Hle].
      * rewrite (Z.bits_above_log2 15 (n - 12)); [|lia|].
        -- rewrite andb_false_r. symmetry. apply Z.eqb_neq. lia.
        -- change (Z.log2 15) with 3. lia.
      * assert (Hn4 : n = 12 \/ n = 13 \/ n = 14 \/ n = 15) by lia.
        destruct Hn4 as [-> | [-> | [-> | ->]]];
          [rewrite H12 | rewrite H13 | rewrite H14 | rewrite H15];
          reflexivity.
Qed.

(** X1: [makeIntoDir] changes the mode word and nothing else: the three
    time stamps, the owner ids, the link count and the size of the record
    it returns are those of the record it was given. *)
Theorem makeIntoDir_changes_mode_only :
  forall d,
    st_atime (makeIntoDir d) = st_atime d
    /\ st_ctime (makeIntoDir d) = st_ctime d
    /\ st_mtime (makeIntoDir d) = st_mtime d
    /\ st_uid (makeIntoDir d) = st_uid d
    /\ st_gid (makeIntoDir d) = st_gid d
    /\ st_nlink (makeIntoDir d) = st_nlink d
    /\ st_size (makeIntoDir d) = st_size d.
Proof.
  intros d. unfold makeIntoDir. cbn [fold_left].
  unfold makeIntoDir_step. cbn [fst snd].
  repeat match goal with
         | |- context [if ?c then _ else _] => destruct c
         end; cbn; repeat split.
Qed.

(** X2: the mode that [makeIntoDir] returns has the file type "directory"
    (as [stat.S_ISDIR] tests it) if and only if the input word has the
    regular-file bit 0o100000 set and the bits 0o020000 and 0o010000 clear.
    The regular-file bit is toggled, not cleared: on a word without it the
    result carries both type bits and is no directory mode. *)
Theorem makeIntoDir_is_directory_iff :
  forall d,
    S_ISDIR (st_mode (makeIntoDir d)) = true
    <-> Z.testbit (st_mode d) 15 = true
        /\ Z.testbit (st_mode d) 13 = false
        /\ Z.testbit (st_mode d) 12 = false.
Proof.
  intros d. rewrite S_ISDIR_bits.
  rewrite !(makeIntoDir_bits T d) by lia. cbv zeta.
  generalize (Z.testbit (st_mode d) 15), (Z.testbit (st_mode d) 14),
             (Z.testbit (st_mode d) 13), (Z.testbit (st_mode d) 12),
             (Z.testbit (st_mode d) 8), (Z.testbit (st_mode d) 5),
             (Z.testbit (st_mode d) 2).
  intros b15 b14 b13 b12 r8 r5 r2. cbn.
  destruct b15, b14, b13, b12, r8, r5, r2; cbn; intuition congruence.
Qed.

End MakeIntoDirMore.

(** ** Leading separators *)

Section LeadingSlash.

Context {host : Host}.
Implicit Type self : NCFS.t.

Lemma final_split_slash (p : string) :
  Py.final (split "/" (String "/" p)) = Py.final (split "/" p).
Proof.
  cbn [split]. rewrite Ascii.eqb_refl.
  change (EmptyString :: split "/" p) with ([EmptyString] ++ split "/" p)%list.
  apply final_app, split_not_nil.
Qed.

Lemma is_var_dir_slash self (p : string) :
  NCFS.is_var_dir self (String "/" p) = NCFS.is_var_dir self p.
Proof. reflexivity. Qed.

Lemma is_var_attribute_slash self (p : string) :
  NCFS.is_var_attribute self (String "/" p) = NCFS.is_var_attribute self p.
Proof.
  unfold NCFS.is_var_attribute, NCFS.is_var_data, NCFS.is_var_dimensions.
  rewrite is_var_dir_slash, !contains_cons_mismatch by discriminate.
  reflexivity.
Qed.

Lemma is_var_data_slash self (p : string) :
  NCFS.is_var_data self (String "/" p) = NCFS.is_var_data self p.
Proof.
  unfold NCFS.is_var_data. apply contains_cons_mismatch. discriminate.
Qed.

Lemma get_attribute_slash self (p : string) :
  NCFS.get_attribute self (String "/" p) = NCFS.get_attribute self p.
Proof.
  unfold NCFS.get_attribute, NCFS.get_attrname, NCFS.get_varname.
  rewrite final_split_slash. reflexivity.
Qed.

Lemma get_variable_slash self (p : string) :
  NCFS.get_variable self (String "/" p) = NCFS.get_variable self p.
Proof. reflexivity. Qed.

(** The same facts for the whole run of leading separators. *)
Lemma is_var_attribute_lstrip self (p : string) :
  NCFS.is_var_attribute self (lstrip "/" p) = NCFS.is_var_attribute self p.
Proof.
  induction p as [|a p IH]; [reflexivity|]. cbn [lstrip mem_char].
  destruct (Ascii.eqb_spec "/" a) as [<-|Hne]; cbn [orb]; [|reflexivity].
  rewrite IH, is_var_attribute_slash. reflexivity.
Qed.

Lemma is_var_data_lstrip self (p : string) :
  NCFS.is_var_data self (lstrip "/" p) = NCFS.is_var_data self p.
Proof.
  induction p as [|a p IH]; [reflexivity|]. cbn [lstrip mem_char].
  destruct (Ascii.eqb_spec "/" a) as [<-|Hne]; cbn [orb]; [|reflexivity].
  rewrite IH, is_var_data_slash. reflexivity.
Qed.

Lemma is_var_dir_lstrip self (p : string) :
  NCFS.is_var_dir self (lstrip "/" p) = NCFS.is_var_dir self p.
Proof. unfold NCFS.is_var_dir. rewrite lstrip_idempotent. reflexivity. Qed.

Lemma get_attribute_lstrip self (p : string) :
  NCFS.get_attribute self (lstrip "/" p) = NCFS.get_attribute self p.
Proof.
  induction p as [|a p IH]; [reflexivity|]. cbn [lstrip mem_char].
  destruct (Ascii.eqb_spec "/" a) as [<-|Hne]; cbn [orb]; [|reflexivity].
  rewrite IH, get_attribute_slash. reflexivity.
Qed.

Lemma get_variable_lstrip self (p : string) :
  NCFS.get_variable self (lstrip "/" p) = NCFS.get_variable self p.
Proof.
  unfold NCFS.get_variable, NCFS.get_varname.
  rewrite lstrip_idempotent. reflexivity.
Qed.

Lemma is_blacklisted_lstrip self (p : string) :
  NCFS.is_blacklisted self (lstrip "/" p) = contains ".Trash" p.
Proof. unfold NCFS.is_blacklisted. apply contains_lstrip. reflexivity. Qed.

(** X3: one more separator in front of a path changes nothing: [getattr],
    [readdir] and [open] give the same result, and so does [read] wherever
    the path is served as an attribute or as variable data. *)
Theorem leading_slash_is_ignored :
  forall self (os : OS) (p : string),
    NCFS.getattr self os (String "/" p) = NCFS.getattr self os p
    /\ NCFS.readdir self (String "/" p) = NCFS.readdir self p
    /\ (forall flags,
          NCFS.open self (String "/" p) flags = NCFS.open self p flags)
    /\ (NCFS.is_var_attribute self p || NCFS.is_var_data self p = true ->
        forall count offset,
          NCFS.read self (String "/" p) count offset
          = NCFS.read self p count offset).
Proof.
  intros self os p. split; [reflexivity|]. split; [reflexivity|].
  split; [reflexivity|].
  intros Hserved count offset. unfold NCFS.read.
  rewrite is_var_attribute_slash, is_var_data_slash, get_attribute_slash,
    get_variable_slash.
  destruct (NCFS.is_var_attribute self p); [reflexivity|].
  destruct (NCFS.is_var_data self p); [reflexivity | discriminate].
Qed.

End LeadingSlash.

Lemma leading_slash_is_ignored_witness :
  NCFS.read Sample.ncfs "//temp/units" 2 0
  = NCFS.read Sample.ncfs "/temp/units" 2 0.
Proof.
  destruct (leading_slash_is_ignored Sample.ncfs Sample.os "/temp/units")
    as (_ & _ & _ & Hread).
  apply Hread. reflexivity.
Defined.

(** ** The record that [getattr] returns *)

Section GetattrRecord.

Context {host : Host}.
Implicit Type self : NCFS.t.

Lemma makeIntoDir_default self (os : OS) :
  makeIntoDir (NCFS.default_stat self os)
  = mkstat (NCFS.mount_time self) (NCFS.mount_time self) (getgid os) 16877
           (NCFS.mount_time self) 1 4096 (getuid os).
Proof. reflexivity. Qed.

(** What [getattr] returns when it returns: the record of a directory for
    the root and for a variable name (unless blacklisted), and the
    regular-file record with some size otherwise. *)
Lemma getattr_cases self (os : OS) (p : string) (d : statdict pyfloat) :
  NCFS.getattr self os p = Ok d ->
  if String.eqb (lstrip "/" p) ""
     || negb (contains ".Trash" p) && NCFS.is_var_dir self p
  then d = makeIntoDir (NCFS.default_stat self os)
  else exists n, d = set_st_size (NCFS.default_stat self os) n.
Proof.
  unfold NCFS.getattr. intros H.
  rewrite is_blacklisted_lstrip, is_var_dir_lstrip in H.
  destruct (String.eqb (lstrip "/" p) ""); cbn [orb].
  { congruence. }
  destruct (contains ".Trash" p); cbn [negb andb].
  { exists 4096. inversion H. reflexivity. }
  cbn [NCFS.exists_ negb] in H.
  destruct (NCFS.is_var_dir self p).
  { inversion H. reflexivity. }
  destruct (NCFS.is_var_attribute self (lstrip "/" p)).
  { destruct (NCFS.get_attribute self (lstrip "/" p)); [|discriminate].
    cbn [Py.bind] in H.
    destruct (size (NCFS.attr_repr self) a) as [n|]; [|discriminate].
    exists n. inversion H. reflexivity. }
  destruct (NCFS.is_var_data self (lstrip "/" p)); [|discriminate].
  destruct (NCFS.get_variable self (lstrip "/" p)); [|discriminate].
  cbn [Py.bind] in H.
  destruct (size (NCFS.vardata_repr self) a) as [n|]; [|discriminate].
  exists n. inversion H. reflexivity.
Qed.

(** X4: every record that [getattr] returns carries the mount time in its
    three time stamps, the ids of the process, and link count 1, for
    directories too; its mode is 0o040755 with size 4096 when the path is
    the root or names a variable and holds no [.Trash], and 0o100644
    otherwise. *)
Theorem getattr_record_shape :
  forall self (os : OS) (p : string) (d : statdict pyfloat),
    NCFS.getattr self os p = Ok d ->
    st_atime d = NCFS.mount_time self
    /\ st_ctime d = NCFS.mount_time self
    /\ st_mtime d = NCFS.mount_time self
    /\ st_uid d = getuid os /\ st_gid d = getgid os
    /\ st_nlink d = 1
    /\ (if String.eqb (lstrip "/" p) ""
           || negb (contains ".Trash" p) && NCFS.is_var_dir self p
        then st_mode d = 16877 /\ st_size d = 4096
        else st_mode d = 33188).
Proof.
  intros self os p d H. apply getattr_cases in H.
  destruct (String.eqb (lstrip "/" p) ""
            || negb (contains ".Trash" p) && NCFS.is_var_dir self p).
  - subst d. rewrite makeIntoDir_default. cbn. repeat split.
  - destruct H as [n ->]. cbn. repeat split.
Qed.

(** X5: [open] refuses every path that [getattr] reports as a directory,
    except the root: when [getattr] returns a directory mode and [open]
    returns, the path consists of separators only. *)
Theorem open_accepts_no_directory_but_root :
  forall self (os : OS) (p : string) (d : statdict pyfloat) (flags fd : Z),
    NCFS.getattr self os p = Ok d ->
    S_ISDIR (st_mode d) = true ->
    NCFS.open self p flags = Ok fd ->
    lstrip "/" p = EmptyString.
Proof.
  intros self os p d flags fd Hstat Hdir Hopen.
  apply getattr_cases in Hstat.
  rewrite open_is_file in Hopen. unfold NCFS.is_file, NCFS.is_dir in Hopen.
  destruct (String.eqb_spec (lstrip "/" p) "") as [Hroot|_]; [exact Hroot|].
  cbn [orb] in Hstat.
  destruct (NCFS.is_var_dir self p); [discriminate Hopen|].
  rewrite andb_false_r in Hstat. destruct Hstat as [n ->].
  cbn in Hdir. discriminate.
Qed.

End GetattrRecord.

Lemma getattr_record_shape_witness :
  NCFS.getattr Sample.ncfs Sample.os "/temp/units"
  = Ok (mkstat Double.one Double.one 1000 33188 Double.one 1 2 1000)
  /\ st_nlink (mkstat Double.one Double.one 1000 33188 Double.one 1 2 1000)
     = 1.
Proof.
  split; [reflexivity|].
  exact (proj1 (proj2 (proj2 (proj2 (proj2 (proj2
           (getattr_record_shape Sample.ncfs Sample.os "/temp/units"
              (mkstat Double.one Double.one 1000 33188 Double.one 1 2 1000)
              eq_refl))))))).
Defined.

Lemma open_accepts_no_directory_but_root_witness :
  NCFS.open Sample.ncfs "/" 0 = Ok 0 /\ lstrip "/" "/" = EmptyString.
Proof.
  split; [reflexivity|].
  exact (open_accepts_no_directory_but_root Sample.ncfs Sample.os "/"
           (mkstat Double.one Double.one 1000 16877 Double.one 1 4096 1000)
           0 0 eq_refl eq_refl eq_refl).
Defined.

(** ** Lookups *)

Section Lookups.

Context {host : Host}.
Implicit Type self : NCFS.t.

Lemma getitem_missing {A : Type} (l : list (string * A)) (k : string) :
  has_key k l = false -> getitem l k = Raise (KeyError k).
Proof. unfold has_key, getitem. destruct (assoc k l); [discriminate | auto]. Qed.

Lemma getitem_present {A : Type} (l : list (string * A)) (k : string) :
  has_key k l = true -> exists a, assoc k l = Some a /\ getitem l k = Ok a.
Proof.
  unfold has_key, getitem. destruct (assoc k l) as [a|]; [|discriminate].
  intros _. exists a. auto.
Qed.

Lemma assoc_in {A : Type} (l : list (string * A)) (k : string) :
  In k (map fst l) -> exists a, assoc k l = Some a /\ In (k, a) l.
Proof.
  induction l as [|[k' a'] l IH]; [contradiction|].
  cbn [map fst In assoc]. intros Hin.
  destruct (String.eqb_spec k k') as [->|Hne].
  - exists a'. auto.
  - destruct Hin as [Heq|Hin]; [congruence|].
    destruct (IH Hin) as (a & Ha & Hina). exists a. auto.
Qed.

Lemma split1_single (s : string) : no_slash s -> split1 "/" s = [s].
Proof.
  induction s as [|a s IH]; intros Hs; [reflexivity|].
  apply no_slash_cons in Hs as [Ha Hs]. cbn [split1].
  apply Ascii.eqb_neq in Ha. rewrite Ha, (IH Hs). reflexivity.
Qed.

Lemma lstrip_no_slash_whole (s : string) : no_slash s -> lstrip "/" s = s.
Proof.
  intros Hs. destruct s as [|a s]; [reflexivity|].
  apply no_slash_cons in Hs as [Ha _]. cbn [lstrip mem_char].
  assert (Hb : Ascii.eqb "/" a = false) by (apply Ascii.eqb_neq; congruence).
  rewrite Hb. reflexivity.
Qed.

(** X6: a path under a name that is no variable of the dataset ends in
    [KeyError] on that name, from [getattr] and from [read] alike, never in
    a no-such-entry error: for a path with no [.Trash] that is not the root
    and not a variable directory, whose first segment is no variable, and
    that holds [DATA_REPR] or does not hold [dimensions]. *)
Theorem unknown_variable_raises_KeyError :
  forall self (os : OS) (p : string),
    lstrip "/" p <> EmptyString ->
    contains ".Trash" p = false ->
    NCFS.is_var_dir self p = false ->
    has_key (NCFS.get_varname self p)
            (variables (NCFS.dataset self)) = false ->
    NCFS.is_var_data self p = true \/ NCFS.is_var_dimensions self p = false ->
    NCFS.getattr self os p = Raise (KeyError (NCFS.get_varname self p))
    /\ forall count offset,
         NCFS.read self p count offset
         = Raise (KeyError (NCFS.get_varname self p)).
Proof.
  intros self os p Hroot Htrash Hdir Hvar Hserved.
  assert (Hattr : NCFS.get_attribute self p
                  = Raise (KeyError (NCFS.get_varname self p))).
  { unfold NCFS.get_attribute. rewrite (getitem_missing _ _ Hvar).
    reflexivity. }
  assert (Hget : NCFS.get_variable self p
                 = Raise (KeyError (NCFS.get_varname self p))).
  { unfold NCFS.get_variable. apply getitem_missing, Hvar. }
  assert (Hcase : NCFS.is_var_attribute self p = true
                  \/ (NCFS.is_var_attribute self p = false
                      /\ NCFS.is_var_data self p = true)).
  { unfold NCFS.is_var_attribute. rewrite Htrash, Hdir. cbn [orb].
    destruct (NCFS.is_var_data self p); cbn [orb negb]; [auto|].
    destruct Hserved as [? | ->]; [discriminate | auto]. }
  split.
  - unfold NCFS.getattr.
    rewrite is_blacklisted_lstrip, is_var_dir_lstrip, is_var_attribute_lstrip,
      is_var_data_lstrip, get_attribute_lstrip, get_variable_lstrip.
    apply String.eqb_neq in Hroot. rewrite Hroot, Htrash, Hdir.
    cbn [NCFS.exists_ negb].
    destruct Hcase as [-> | [-> ->]];
      [rewrite Hattr | rewrite Hget]; reflexivity.
  - intros count offset. unfold NCFS.read.
    destruct Hcase as [-> | [-> ->]];
      [rewrite Hattr | rewrite Hget]; reflexivity.
Qed.

(** X7: the size that [getattr] reports is the length of what [read]
    serves.  With plugins whose [size] is the length of what they return,
    on a path with no [.Trash] that is not a variable directory and has a
    representation [data]: [getattr] returns the regular-file record with
    [st_size = len(data)], and reading [st_size] bytes from offset 0
    returns [data]. *)
Theorem getattr_size_is_read_length :
  forall self (os : OS) (p data : string),
    (forall a s, call (NCFS.attr_repr self) a = Ok s ->
                 size (NCFS.attr_repr self) a = Ok (len s)) ->
    (forall v s, call (NCFS.vardata_repr self) v = Ok s ->
                 size (NCFS.vardata_repr self) v = Ok (len s)) ->
    contains ".Trash" p = false ->
    NCFS.is_var_dir self p = false ->
    NCFS.representation self p = Ok data ->
    exists d,
      NCFS.getattr self os p = Ok d
      /\ d = set_st_size (NCFS.default_stat self os) (len data)
      /\ NCFS.read self p (st_size d) 0 = Ok data.
Proof.
  intros self os p data Hattr Hvar Htrash Hdir Hrepr.
  exists (set_st_size (NCFS.default_stat self os) (len data)).
  split; [|split; [reflexivity|]].
  - unfold NCFS.getattr.
    rewrite is_blacklisted_lstrip, is_var_dir_lstrip, is_var_attribute_lstrip,
      is_var_data_lstrip, get_attribute_lstrip, get_variable_lstrip.
    rewrite Htrash, Hdir. cbn [NCFS.exists_ negb].
    unfold NCFS.representation in Hrepr.
    destruct (String.eqb_spec (lstrip "/" p) "") as [Hroot|_].
    { exfalso. unfold NCFS.is_var_dir in Hdir. rewrite Hroot in Hdir.
      assert (Hatt : NCFS.is_var_attribute self p = true
                     \/ NCFS.is_var_attribute self p = false) by
        (destruct (NCFS.is_var_attribute self p); auto).
      unfold NCFS.get_attribute, NCFS.get_variable, NCFS.get_varname in Hrepr.
      rewrite Hroot in Hrepr. cbn [split1 Py.first hd] in Hrepr.
      rewrite (getitem_missing _ _ Hdir) in Hrepr.
      destruct (NCFS.is_var_attribute self p); [discriminate|].
      destruct (NCFS.is_var_data self p); discriminate. }
    destruct (NCFS.is_var_attribute self p).
    + destruct (NCFS.get_attribute self p) as [a|]; [|discriminate].
      cbn [Py.bind] in *. rewrite (Hattr a data Hrepr). reflexivity.
    + destruct (NCFS.is_var_data self p); [|discriminate].
      destruct (NCFS.get_variable self p) as [v|]; [|discriminate].
      cbn [Py.bind] in *. rewrite (Hvar v data Hrepr). reflexivity.
  - cbn [st_size set_st_size]. rewrite read_representation, Hrepr.
    cbn [Py.bind]. rewrite slice_whole. reflexivity.
Qed.

End Lookups.

Lemma unknown_variable_raises_KeyError_witness :
  NCFS.getattr Sample.ncfs Sample.os "/nosuch/units"
  = Raise (KeyError "nosuch").
Proof.
  refine (proj1 (unknown_variable_raises_KeyError Sample.ncfs Sample.os
                   "/nosuch/units" _ eq_refl eq_refl eq_refl
                   (or_intror eq_refl))).
  discriminate.
Defined.

Lemma getattr_size_is_read_length_witness :
  exists d,
    NCFS.getattr Sample.ncfs Sample.os "/temp/DATA_REPR" = Ok d
    /\ d = set_st_size (NCFS.default_stat Sample.ncfs Sample.os) 8
    /\ NCFS.read Sample.ncfs "/temp/DATA_REPR" (st_size d) 0
       = Ok ("1.0" ++ newline ++ "2.0" ++ newline).
Proof.
  refine (getattr_size_is_read_length Sample.ncfs Sample.os
            "/temp/DATA_REPR" ("1.0" ++ newline ++ "2.0" ++ newline)
            _ _ eq_refl eq_refl eq_refl).
  - intros a s H.
    change (AttributesAsTextFiles.__call__ a = Ok s) in H.
    change (AttributesAsTextFiles.size a = Ok (len s)).
    unfold AttributesAsTextFiles.size. rewrite H. reflexivity.
  - intros v s H.
    change (VardataAsFlatTextFiles.__call__ "%.1f" v = Ok s) in H.
    change (VardataAsFlatTextFiles.size "%.1f" v = Ok (len s)).
    unfold VardataAsFlatTextFiles.size. rewrite H. reflexivity.
Defined.

(** ** Nodes of a variable *)

Section VariableNodes.

Context {host : Host}.
Variable self : NCFS.t.
Variable os : OS.

Lemma string_app_assoc (a b c : string) : (a ++ b) ++ c = a ++ (b ++ c).
Proof.
  induction a as [|x a IH]; [reflexivity|]. cbn [String.append].
  rewrite IH. reflexivity.
Qed.

Lemma string_app_length (a b : string) : len (a ++ b) = len a + len b.
Proof.
  unfold len. induction a as [|x a IH]; [cbn; lia|].
  cbn [String.append String.length]. lia.
Qed.

(** A variable [v] of the dataset whose name is not empty and holds no
    separator. *)
Variables (v : string) (var : NcVariable).
Hypothesis v_in_dataset : assoc v (variables (NCFS.dataset self)) = Some var.
Hypothesis v_not_empty : v <> EmptyString.
Hypothesis v_no_slash : no_slash v.

Lemma under_variable_lstrip (rest : string) :
  lstrip "/" (String "/" (v ++ rest)) = v ++ rest.
Proof.
  cbn [lstrip mem_char]. rewrite Ascii.eqb_refl. cbn [orb].
  apply lstrip_no_slash; assumption.
Qed.

Lemma under_variable_not_root (rest : string) :
  String.eqb (v ++ rest) "" = false.
Proof.
  apply String.eqb_neq. destruct v; [contradiction | discriminate].
Qed.

Lemma under_variable_varname (rest : string) :
  NCFS.get_varname self (String "/" (v ++ String "/" rest)) = v.
Proof.
  unfold NCFS.get_varname. rewrite under_variable_lstrip.
  rewrite (split1_no_slash v rest v_no_slash). reflexivity.
Qed.

Lemma variable_has_key : has_key v (variables (NCFS.dataset self)) = true.
Proof. unfold has_key. rewrite v_in_dataset. reflexivity. Qed.

Lemma variable_dir_readdir :
  NCFS.readdir self (String "/" v)
  = Ok (["."; ".."] ++ ncattrs var ++ ["DATA_REPR"])%list.
Proof.
  assert (Hstrip : lstrip "/" (String "/" v) = v).
  { cbn [lstrip mem_char]. rewrite Ascii.eqb_refl. cbn [orb].
    apply lstrip_no_slash_whole, v_no_slash. }
  assert (Hne : String.eqb v "" = false) by (apply String.eqb_neq; assumption).
  unfold NCFS.readdir. rewrite Hstrip, Hne, variable_has_key.
  unfold NCFS.getncAttrs, NCFS.get_varname.
  rewrite (lstrip_no_slash_whole v v_no_slash), (split1_single v v_no_slash).
  cbn [Py.first hd]. unfold getitem. rewrite v_in_dataset. reflexivity.
Qed.

Lemma variable_dir_getattr :
  contains ".Trash" v = false ->
  NCFS.getattr self os (String "/" v)
  = Ok (mkstat (NCFS.mount_time self) (NCFS.mount_time self) (getgid os)
               16877 (NCFS.mount_time self) 1 4096 (getuid os)).
Proof.
  assert (Hstrip : lstrip "/" (String "/" v) = v).
  { cbn [lstrip mem_char]. rewrite Ascii.eqb_refl. cbn [orb].
    apply lstrip_no_slash_whole, v_no_slash. }
  assert (Hne : String.eqb v "" = false) by (apply String.eqb_neq; assumption).
  intros Htrash. unfold NCFS.getattr. rewrite Hstrip, Hne.
  unfold NCFS.is_blacklisted. rewrite Htrash. cbn [NCFS.exists_ negb].
  unfold NCFS.is_var_dir.
  rewrite (lstrip_no_slash_whole v v_no_slash), variable_has_key.
  reflexivity.
Qed.

(** X8: the directory of a variable.  [readdir] on [/v] lists [.], [..],
    the attribute names of [v] in their order, and [DATA_REPR], and nothing
    else (no [dimensions] entry); when [v] holds no [.Trash], [getattr] on
    [/v] returns the directory record with mode 0o040755 and size 4096. *)
Theorem variable_directory :
  NCFS.readdir self (String "/" v)
  = Ok (["."; ".."] ++ ncattrs var ++ ["DATA_REPR"])%list
  /\ (contains ".Trash" v = false ->
      NCFS.getattr self os (String "/" v)
      = Ok (mkstat (NCFS.mount_time self) (NCFS.mount_time self) (getgid os)
                   16877 (NCFS.mount_time self) 1 4096 (getuid os))).
Proof. split; [exact variable_dir_readdir | exact variable_dir_getattr]. Qed.

(** X9: the data node of a variable.  When [v/DATA_REPR] holds no [.Trash]
    and is not itself the name of a variable, [getattr] on [/v/DATA_REPR]
    returns the regular-file record with the size the data plugin reports
    for [v], and [read] returns the window of what the data plugin returns
    for [v]; a failure of the plugin is the failure of the call. *)
Theorem data_node_dispatch :
  contains ".Trash" (v ++ "/DATA_REPR") = false ->
  has_key (v ++ "/DATA_REPR") (variables (NCFS.dataset self)) = false ->
  NCFS.getattr self os (String "/" (v ++ "/DATA_REPR"))
  = (n <- size (NCFS.vardata_repr self) var ;;
     Ok (set_st_size (NCFS.default_stat self os) n))
  /\ forall count offset,
       NCFS.read self (String "/" (v ++ "/DATA_REPR")) count offset
       = (data <- call (NCFS.vardata_repr self) var ;;
          Ok (slice data offset (offset + count))).
Proof.
  intros Htrash Hnovar.
  assert (Hdata : contains "DATA_REPR" (v ++ "/DATA_REPR") = true).
  { apply contains_append. reflexivity. }
  assert (Hvar : NCFS.get_variable self (String "/" (v ++ "/DATA_REPR"))
                 = Ok var).
  { unfold NCFS.get_variable.
    rewrite (under_variable_varname "DATA_REPR").
    unfold getitem. rewrite v_in_dataset. reflexivity. }
  assert (Hatt : NCFS.is_var_attribute self (String "/" (v ++ "/DATA_REPR"))
                 = false).
  { unfold NCFS.is_var_attribute, NCFS.is_var_data.
    rewrite !contains_cons_mismatch by discriminate.
    rewrite Htrash, Hdata. rewrite orb_true_r. reflexivity. }
  split.
  - unfold NCFS.getattr.
    rewrite is_blacklisted_lstrip, is_var_dir_lstrip, is_var_attribute_lstrip,
      is_var_data_lstrip, get_variable_lstrip.
    rewrite under_variable_lstrip, under_variable_not_root.
    rewrite contains_cons_mismatch by discriminate. rewrite Htrash.
    cbn [NCFS.exists_ negb]. unfold NCFS.is_var_dir at 1.
    rewrite under_variable_lstrip, Hnovar, Hatt. unfold NCFS.is_var_data.
    rewrite contains_cons_mismatch by discriminate. rewrite Hdata, Hvar.
    reflexivity.
  - intros count offset. unfold NCFS.read. rewrite Hatt.
    unfold NCFS.is_var_data.
    rewrite contains_cons_mismatch by discriminate. rewrite Hdata, Hvar.
    reflexivity.
Qed.

(** X10: only the first and the last segment of a path count in an
    attribute lookup.  For a name [x] with no separator and any text [mid]
    in between, [/v/mid/x] is served as the attribute [x] of [v] (when the
    path holds none of the three markers and is not itself a variable
    name): [getattr] and [read] give what they give for that attribute,
    however many segments lie in between. *)
Theorem nested_path_is_attribute_of_last_segment :
  forall (mid x : string),
    no_slash x ->
    contains ".Trash" (v ++ String "/" (mid ++ String "/" x)) = false ->
    contains "DATA_REPR" (v ++ String "/" (mid ++ String "/" x)) = false ->
    contains "dimensions" (v ++ String "/" (mid ++ String "/" x)) = false ->
    has_key (v ++ String "/" (mid ++ String "/" x))
            (variables (NCFS.dataset self)) = false ->
    NCFS.getattr self os (String "/" (v ++ String "/" (mid ++ String "/" x)))
    = (attr <- getncattr var x ;;
       n <- size (NCFS.attr_repr self) attr ;;
       Ok (set_st_size (NCFS.default_stat self os) n))
    /\ forall count offset,
         NCFS.read self (String "/" (v ++ String "/" (mid ++ String "/" x)))
                   count offset
         = (attr <- getncattr var x ;;
            data <- call (NCFS.attr_repr self) attr ;;
            Ok (slice data offset (offset + count))).
Proof.
  intros mid x Hx Htrash Hdata Hdims Hnovar.
  set (rel := v ++ String "/" (mid ++ String "/" x)) in *.
  assert (Hlook : NCFS.get_attribute self (String "/" rel) = getncattr var x).
  { unfold NCFS.get_attribute, NCFS.get_attrname. unfold rel.
    rewrite under_variable_varname.
    replace (String "/" (v ++ String "/" (mid ++ String "/" x)))
      with (String "/" (v ++ String "/" mid) ++ String "/" x).
    - rewrite (final_segment _ x Hx). unfold getitem.
      rewrite v_in_dataset. reflexivity.
    - cbn [String.append]. f_equal. rewrite string_app_assoc. reflexivity. }
  assert (Hatt : NCFS.is_var_attribute self (String "/" rel) = true).
  { unfold NCFS.is_var_attribute, NCFS.is_var_dir, NCFS.is_var_data,
      NCFS.is_var_dimensions.
    rewrite !contains_cons_mismatch by discriminate.
    unfold rel at 2. rewrite under_variable_lstrip. fold rel.
    rewrite Htrash, Hdata, Hdims, Hnovar. reflexivity. }
  split.
  - unfold NCFS.getattr.
    rewrite is_blacklisted_lstrip, is_var_dir_lstrip, is_var_attribute_lstrip,
      get_attribute_lstrip.
    unfold rel at 1. rewrite under_variable_lstrip, under_variable_not_root.
    fold rel. rewrite contains_cons_mismatch by discriminate. rewrite Htrash.
    cbn [NCFS.exists_ negb]. unfold NCFS.is_var_dir.
    unfold rel at 1. rewrite under_variable_lstrip. fold rel.
    rewrite Hnovar, Hatt, Hlook. reflexivity.
  - intros count offset. unfold NCFS.read. rewrite Hatt, Hlook. reflexivity.
Qed.

(** X11: what [readdir] lists under a variable, [getattr] and [read]
    serve.  For a name [x] that [readdir] lists among the attributes of
    [v], with the attribute text plugin of the program, when [v/x] holds
    none of the three markers, [x] no separator, and [v/x] is no variable
    name: the attribute has a value [a], [getattr] on [/v/x] reports a
    regular file of [len(str(a)) + 1] bytes, and reading that many bytes
    from offset 0 returns [str(a)] and a newline. *)
Theorem listed_attribute_is_served :
  forall (x : string),
    NCFS.attr_repr self = AttributesAsTextFiles.new ->
    In x (ncattrs var) ->
    no_slash x ->
    contains ".Trash" (v ++ String "/" x) = false ->
    contains "DATA_REPR" (v ++ String "/" x) = false ->
    contains "dimensions" (v ++ String "/" x) = false ->
    has_key (v ++ String "/" x) (variables (NCFS.dataset self)) = false ->
    exists a,
      In (x, a) (attributes var)
      /\ NCFS.getattr self os (String "/" (v ++ String "/" x))
         = Ok (set_st_size (NCFS.default_stat self os) (len (str a) + 1))
      /\ NCFS.read self (String "/" (v ++ String "/" x)) (len (str a) + 1) 0
         = Ok (str a ++ newline).
Proof.
  intros x Hplugin Hin Hx Htrash Hdata Hdims Hnovar.
  destruct (assoc_in (attributes var) x Hin) as (a & Hassoc & Hina).
  exists a. split; [exact Hina|].
  destruct (attribute_path_dispatch self os v x var v_in_dataset v_not_empty
              v_no_slash Hx Htrash Hdata Hdims Hnovar (len (str a) + 1) 0)
    as [Hstat Hread].
  assert (Hlen : len (str a ++ newline) = len (str a) + 1).
  { rewrite string_app_length. reflexivity. }
  unfold getncattr in Hstat, Hread. rewrite Hassoc in Hstat, Hread.
  rewrite Hplugin in Hstat, Hread. cbn [Py.bind] in Hstat, Hread.
  split.
  - rewrite Hstat. cbn [size AttributesAsTextFiles.new].
    unfold AttributesAsTextFiles.size, AttributesAsTextFiles.__call__.
    cbn [Py.bind]. rewrite Hlen. reflexivity.
  - rewrite Hread. cbn [call AttributesAsTextFiles.new].
    unfold AttributesAsTextFiles.__call__. cbn [Py.bind].
    rewrite <- Hlen. rewrite slice_whole. reflexivity.
Qed.

End VariableNodes.

Lemma variable_directory_witness :
  NCFS.readdir Sample.ncfs "/temp" = Ok ["."; ".."; "units"; "DATA_REPR"].
Proof.
  refine (proj1 (variable_directory Sample.ncfs Sample.os "temp" Sample.temp
                   eq_refl _ eq_refl)).
  discriminate.
Defined.

Lemma data_node_dispatch_witness :
  NCFS.getattr Sample.ncfs Sample.os "/temp/DATA_REPR"
  = Ok (set_st_size (NCFS.default_stat Sample.ncfs Sample.os) 8).
Proof.
  refine (proj1 (data_node_dispatch Sample.ncfs Sample.os "temp" Sample.temp
                   eq_refl _ eq_refl eq_refl eq_refl)).
  discriminate.
Defined.

Lemma nested_path_is_attribute_of_last_segment_witness :
  NCFS.getattr Sample.ncfs Sample.os "/temp/no/such/level/units"
  = NCFS.getattr Sample.ncfs Sample.os "/temp/units".
Proof.
  refine (proj1 (nested_path_is_attribute_of_last_segment Sample.ncfs
                   Sample.os "temp" Sample.temp eq_refl _ eq_refl
                   "no/such/level" "units"
                   eq_refl eq_refl eq_refl eq_refl eq_refl)).
  discriminate.
Defined.

Lemma listed_attribute_is_served_witness :
  exists a,
    In ("units", a) (attributes Sample.temp)
    /\ NCFS.getattr Sample.ncfs Sample.os "/temp/units"
       = Ok (set_st_size (NCFS.default_stat Sample.ncfs Sample.os)
                         (len (str a) + 1))
    /\ NCFS.read Sample.ncfs "/temp/units" (len (str a) + 1) 0
       = Ok (str a ++ newline).
Proof.
  refine (listed_attribute_is_served Sample.ncfs Sample.os "temp" Sample.temp
            eq_refl _ eq_refl "units" eq_refl _
            eq_refl eq_refl eq_refl eq_refl eq_refl).
  - discriminate.
  - left. reflexivity.
Defined.

(** ** Listing never fails on well-named datasets *)

Section ReaddirTotal.

Context {host : Host}.

(** X12: on a dataset none of whose variable names holds a separator,
    [readdir] returns a listing for every path, and the listing starts with
    [.] and [..]; for a path that is neither the root nor a variable name
    (a file, or nothing at all) it is exactly these two. *)
Theorem readdir_always_lists :
  forall (self : NCFS.t) (p : string),
    (forall k, has_key k (variables (NCFS.dataset self)) = true -> no_slash k) ->
    exists names,
      NCFS.readdir self p = Ok ("." :: ".." :: names)
      /\ (String.eqb (lstrip "/" p) "" = false ->
          NCFS.is_var_dir self p = false -> names = []).
Proof.
  intros self p Hnames. unfold NCFS.readdir, NCFS.is_var_dir.
  destruct (String.eqb (lstrip "/" p) "").
  - eexists. split; [reflexivity | discriminate].
  - destruct (has_key (lstrip "/" p) (variables (NCFS.dataset self))) eqn:Hkey.
    + pose proof (Hnames _ Hkey) as Hk.
      destruct (getitem_present _ _ Hkey) as (var & Hassoc & Hget).
      unfold NCFS.getncAttrs, NCFS.get_varname.
      rewrite lstrip_idempotent, (split1_single _ Hk). cbn [Py.first hd].
      rewrite Hget. cbn [Py.bind]. eexists. split; [reflexivity|].
      discriminate.
    + exists []. split; [reflexivity | reflexivity].
Qed.

End ReaddirTotal.

Lemma readdir_always_lists_witness :
  exists names,
    NCFS.readdir Sample.ncfs "/temp/units" = Ok ("." :: ".." :: names)
    /\ (String.eqb (lstrip "/" "/temp/units") "" = false ->
        NCFS.is_var_dir Sample.ncfs "/temp/units" = false -> names = []).
Proof.
  apply (readdir_always_lists Sample.ncfs "/temp/units").
  intros k Hk. unfold has_key in Hk.
  cbn [assoc variables Sample.ncfs NCFS.dataset NCFS.__init__ Sample.dataset]
    in Hk.
  destruct (String.eqb_spec k "temp") as [Hk'|_];
    [subst k; reflexivity | discriminate].
Defined.

(** ** Windows of a representation *)

Section Windows.

Context {host : Host}.

Lemma substring_of_empty (n m : nat) :
  String.substring n m EmptyString = EmptyString.
Proof. destruct n, m; reflexivity. Qed.

Lemma substring_length (s : string) (n m : nat) :
  String.length (String.substring n m s)
  = Nat.min m (String.length s - n).
Proof.
  revert n m. induction s as [|c s IH]; intros n m.
  - rewrite substring_of_empty. cbn. lia.
  - destruct n as [|n].
    + destruct m as [|m]; [reflexivity|].
      cbn [String.substring String.length]. rewrite IH. lia.
    + cbn [String.substring String.length]. rewrite IH. lia.
Qed.

Lemma substring_split (s : string) (n a b : nat) :
  String.substring n (a + b) s
  = String.substring n a s ++ String.substring (n + a) b s.
Proof.
  revert n a. induction s as [|c s IH]; intros n a.
  - rewrite !substring_of_empty. reflexivity.
  - destruct n as [|n].
    + destruct a as [|a]; [reflexivity|].
      cbn [Nat.add String.substring String.append].
      rewrite (IH 0%nat a). reflexivity.
    + cbn [Nat.add String.substring]. apply IH.
Qed.

(** X13: [read] returns at most the number of bytes asked for and never
    reads past the end: for a non-negative count and offset, the result has
    [min(count, len(data) - offset)] bytes, and none when the offset is at
    or beyond the end. *)
Theorem read_length :
  forall (self : NCFS.t) (p data : string) (count offset : Z),
    NCFS.representation self p = Ok data ->
    0 <= count -> 0 <= offset ->
    exists out,
      NCFS.read self p count offset = Ok out
      /\ len out = Z.max 0 (Z.min count (len data - offset)).
Proof.
  intros self p data count offset Hrepr Hc Ho.
  rewrite read_representation, Hrepr. cbn [Py.bind].
  eexists. split; [reflexivity|].
  rewrite slice_window by assumption. unfold len.
  rewrite substring_length. lia.
Qed.

(** X14: adjacent windows join: reading [a] bytes at [offset] and then [b]
    bytes at [offset + a] gives, one after the other, what one read of
    [a + b] bytes at [offset] gives. *)
Theorem read_adjacent_windows :
  forall (self : NCFS.t) (p data : string) (a b offset : Z),
    NCFS.representation self p = Ok data ->
    0 <= a -> 0 <= b -> 0 <= offset ->
    exists x y,
      NCFS.read self p a offset = Ok x
      /\ NCFS.read self p b (offset + a) = Ok y
      /\ NCFS.read self p (a + b) offset = Ok (x ++ y).
Proof.
  intros self p data a b offset Hrepr Ha Hb Ho.
  rewrite !read_representation, Hrepr. cbn [Py.bind].
  do 2 eexists. split; [reflexivity|]. split; [reflexivity|].
  rewrite !slice_window by lia.
  rewrite !Z2Nat.inj_add by assumption.
  rewrite substring_split. reflexivity.
Qed.

End Windows.

Lemma read_length_witness :
  exists out,
    NCFS.read Sample.ncfs "/temp/DATA_REPR" 100 5 = Ok out /\ len out = 3.
Proof.
  refine (read_length Sample.ncfs "/temp/DATA_REPR"
            ("1.0" ++ newline ++ "2.0" ++ newline) 100 5 eq_refl _ _); lia.
Defined.

Lemma read_adjacent_windows_witness :
  exists x y,
    NCFS.read Sample.ncfs "/temp/DATA_REPR" 3 1 = Ok x
    /\ NCFS.read Sample.ncfs "/temp/DATA_REPR" 2 (1 + 3) = Ok y
    /\ NCFS.read Sample.ncfs "/temp/DATA_REPR" (3 + 2) 1 = Ok (x ++ y).
Proof.
  refine (read_adjacent_windows Sample.ncfs "/temp/DATA_REPR"
            ("1.0" ++ newline ++ "2.0" ++ newline) 3 2 1 eq_refl _ _ _); lia.
Defined.

(** ** The data plugins *)

Section DataPlugins.

Context {host : Host}.

Lemma len_join_fixed (w : Z) (parts : list string) :
  (forall s, In s parts -> len s = w) ->
  len (Py.join parts) = w * Z.of_nat (List.length parts).
Proof.
  induction parts as [|s parts IH]; intros Hw.
  - cbn. lia.
  - cbn [Py.join fold_right List.length]. rewrite string_app_length.
    fold (Py.join parts). rewrite IH by (intros; apply Hw; right; assumption).
    rewrite (Hw s) by (left; reflexivity). lia.
Qed.

(** X15: the binary representation has one item per element: when every
    element takes [w] bytes, the binary plugin never fails and reports
    [w] times the number of elements as size; an empty payload gives
    size 0. *)
Theorem binary_size_is_itemsize_times_count :
  forall (w : Z) (variable : NcVariable),
    (forall x, len (tobytes x) = w) ->
    size VardataAsBinaryFiles.new variable
    = Ok (w * Z.of_nat (List.length (values variable))).
Proof.
  intros w variable Hw. cbn [size VardataAsBinaryFiles.new].
  unfold VardataAsBinaryFiles.size, VardataAsBinaryFiles.__call__.
  cbn [Py.bind]. f_equal.
  rewrite (len_join_fixed w).
  - rewrite length_map. reflexivity.
  - intros s Hs. apply in_map_iff in Hs as (x & <- & _). apply Hw.
Qed.

Lemma mod_each_all_ok (a : string) (f : scalar -> string) (xs : list scalar) :
  (forall x, In x xs -> char_mod a x = Ok (f x)) ->
  VardataAsFlatTextFiles.mod_each a xs = Ok (map f xs).
Proof.
  induction xs as [|x xs IH]; intros Hok; [reflexivity|].
  cbn [VardataAsFlatTextFiles.mod_each map].
  rewrite (Hok x) by (left; reflexivity). cbn [Py.bind].
  rewrite IH by (intros; apply Hok; right; assumption). reflexivity.
Qed.

Lemma mod_each_first_failure (a : string) (f : scalar -> string)
    (xs ys : list scalar) (x : scalar) (e : exn) :
  (forall y, In y xs -> char_mod a y = Ok (f y)) ->
  char_mod a x = Raise e ->
  VardataAsFlatTextFiles.mod_each a (xs ++ x :: ys) = Raise e.
Proof.
  induction xs as [|y xs IH]; intros Hok Hx.
  - cbn [app VardataAsFlatTextFiles.mod_each]. rewrite Hx. reflexivity.
  - cbn [app VardataAsFlatTextFiles.mod_each].
    rewrite (Hok y) by (left; reflexivity). cbn [Py.bind].
    rewrite IH; [reflexivity | | exact Hx].
    intros; apply Hok; right; assumption.
Qed.

(** X16: the flat-text representation is the lines of the elements, one
    after the other in payload order: when [(fmt + "\n") % x] gives the
    line [f x] for every element [x] of the payload, the plugin returns the
    concatenation of the lines, and its size is the sum of their
    lengths. *)
Theorem flat_text_is_concatenation_of_lines :
  forall (fmt : string) (f : scalar -> string) (variable : NcVariable),
    (forall x, In x (values variable) ->
               char_mod (fmt ++ newline) x = Ok (f x)) ->
    call (VardataAsFlatTextFiles.new fmt) variable
    = Ok (Py.join (map f (values variable)))
    /\ size (VardataAsFlatTextFiles.new fmt) variable
       = Ok (fold_right (fun x n => len (f x) + n) 0 (values variable)).
Proof.
  intros fmt f variable Hok.
  cbn [call size VardataAsFlatTextFiles.new].
  unfold VardataAsFlatTextFiles.size, VardataAsFlatTextFiles.__call__.
  rewrite (mod_each_all_ok _ f _ Hok). cbn [Py.bind]. split; [reflexivity|].
  f_equal. clear Hok. induction (values variable) as [|x xs IH].
  - reflexivity.
  - cbn [map Py.join fold_right]. rewrite string_app_length.
    fold (Py.join (map f xs)). rewrite IH. reflexivity.
Qed.

(** X17: one element that does not format makes the whole flat-text
    representation fail: when the elements before [x] format and
    [(fmt + "\n") % x] raises [e], the plugin raises [e] from [__call__]
    and from [size], whatever follows [x] in the payload. *)
Theorem flat_text_fails_with_first_bad_element :
  forall (fmt : string) (f : scalar -> string) (variable : NcVariable)
         (before after : list scalar) (x : scalar) (e : exn),
    values variable = (before ++ x :: after)%list ->
    (forall y, In y before -> char_mod (fmt ++ newline) y = Ok (f y)) ->
    char_mod (fmt ++ newline) x = Raise e ->
    call (VardataAsFlatTextFiles.new fmt) variable = Raise e
    /\ size (VardataAsFlatTextFiles.new fmt) variable = Raise e.
Proof.
  intros fmt f variable before after x e Hvalues Hok Hbad.
  cbn [call size VardataAsFlatTextFiles.new].
  unfold VardataAsFlatTextFiles.size, VardataAsFlatTextFiles.__call__.
  rewrite Hvalues, (mod_each_first_failure _ f _ _ _ _ Hok Hbad).
  split; reflexivity.
Qed.

End DataPlugins.

Lemma binary_size_is_itemsize_times_count_witness :
  size VardataAsBinaryFiles.new Sample.temp = Ok (8 * 2).
Proof.
  apply (binary_size_is_itemsize_times_count 8 Sample.temp).
  intros x. reflexivity.
Defined.

Lemma flat_text_is_concatenation_of_lines_witness :
  call (VardataAsFlatTextFiles.new "%.1f") Sample.temp
  = Ok ("1.0" ++ newline ++ "2.0" ++ newline)
  /\ size (VardataAsFlatTextFiles.new "%.1f") Sample.temp = Ok (4 + (4 + 0)).
Proof.
  refine (flat_text_is_concatenation_of_lines "%.1f"
            (fun x => Double.fixed 1 x ++ newline) Sample.temp _).
  intros x Hx. reflexivity.
Defined.

Lemma flat_text_fails_with_first_bad_element_witness :
  call (VardataAsFlatTextFiles.new "%f%f") Sample.temp
  = Raise (TypeError "not enough arguments for format string")
  /\ size (VardataAsFlatTextFiles.new "%f%f") Sample.temp
     = Raise (TypeError "not enough arguments for format string").
Proof.
  refine (flat_text_fails_with_first_bad_element "%f%f" (fun _ => EmptyString)
            Sample.temp [] [Double.two] Double.one _ eq_refl _ eq_refl).
  intros y [].
Defined.

(** ** The root listing *)

Section RootListing.

Context {host : Host}.

(** X18: what the root lists is a directory.  Every name that [readdir]
    lists at the root besides [.] and [..] is a variable of the dataset;
    when the name is not empty and holds neither a separator nor [.Trash],
    [getattr] on it returns the directory record and [readdir] on it
    returns a listing that holds [DATA_REPR]. *)
Theorem listed_variable_is_directory :
  forall (self : NCFS.t) (os : OS) (names : list string) (v : string),
    NCFS.readdir self "/" = Ok names ->
    In v names -> v <> "." -> v <> ".." ->
    v <> EmptyString -> no_slash v -> contains ".Trash" v = false ->
    has_key v (variables (NCFS.dataset self)) = true
    /\ NCFS.getattr self os (String "/" v)
       = Ok (mkstat (NCFS.mount_time self) (NCFS.mount_time self) (getgid os)
                    16877 (NCFS.mount_time self) 1 4096 (getuid os))
    /\ exists entries,
         NCFS.readdir self (String "/" v) = Ok entries
         /\ In "DATA_REPR" entries.
Proof.
  intros self os names v Hroot Hin Hdot Hdotdot Hne Hslash Htrash.
  unfold NCFS.readdir in Hroot. cbn [lstrip mem_char] in Hroot.
  cbn in Hroot. injection Hroot as <-.
  destruct Hin as [Heq|[Heq|Hin]]; [congruence | congruence |].
  destruct (assoc_in _ _ Hin) as (var & Hassoc & _).
  split; [unfold has_key; rewrite Hassoc; reflexivity|]. split.
  - exact (variable_dir_getattr self os v var Hassoc Hne Hslash Htrash).
  - eexists. split.
    + exact (variable_dir_readdir self v var Hassoc Hne Hslash).
    + apply in_or_app. right. apply in_or_app. right. left. reflexivity.
Qed.

End RootListing.

Lemma listed_variable_is_directory_witness :
  NCFS.getattr Sample.ncfs Sample.os "/temp"
  = Ok (mkstat Double.one Double.one 1000 16877 Double.one 1 4096 1000).
Proof.
  refine (proj1 (proj2 (listed_variable_is_directory Sample.ncfs Sample.os
                          ["."; ".."; "temp"] "temp" eq_refl _ _ _ _
                          eq_refl eq_refl))).
  - right. right. left. reflexivity.
  - discriminate.
  - discriminate.
  - discriminate.
Defined.
